(** * Home IoT Guardian: the sequence-anomaly engine, embedded and verified

    A shallow embedding of the anomaly-detection core of the repository:

    - [models/preprocess.py]: [clean_data], [create_sequences] and the part
      of [preprocess_pipeline] that precedes the train/test split;
    - [models/train_model.py]: [calculate_reconstruction_errors],
      [determine_threshold], [detect_anomalies], [evaluate_model];
    - [models/optimize_threshold.py]: [find_optimal_threshold];
    - [app.py]: [load_ml_model], [preprocess_for_detection],
      [send_email_alert], [detect_anomalies], [upload_file].

    Conventions of the embedding.

    - A Python float is [npfloat]: a rational number or nan.  Arithmetic on
      the rationals is exact (no rounding, no infinity); nan propagates
      through arithmetic and makes every comparison false, as in numpy.
      The one irrational primitive, [np.sqrt], is a field of the class
      [Numeric]; nothing proved below depends on what it returns.
    - A Python exception is the [Raise] case of [result]; [try]/[except] is
      a [match] on it.
    - The trained network, the CSV reader, the file system and the mail
      transport are fields of the class [Runtime]: each may return or raise.
    - Process-wide globals ([MODEL], [THRESHOLD]) are threaded explicitly. *)

From Stdlib Require Import QArith Qround ZArith List String Lia Lqa Sorted.
From stdpp Require Import base list strings gmap pretty.

Local Open Scope Q_scope.

(** ** Exceptions and results *)

Inductive exn : Type :=
| ValueError (msg : string)
| TypeError (msg : string)
| IndexError (msg : string)
| OtherError (msg : string).

(** [str(e)] of the handler in [app.detect_anomalies]. *)
Definition exn_str (e : exn) : string :=
  match e with
  | ValueError m | TypeError m | IndexError m | OtherError m => m
  end.

Inductive result (A : Type) : Type :=
| Ok (a : A)
| Raise (e : exn).
Arguments Ok {A} a.
Arguments Raise {A} e.

#[global] Instance result_ret : MRet result := fun _ a => Ok a.
#[global] Instance result_bind : MBind result := fun _ _ f m =>
  match m with
  | Ok a => f a
  | Raise e => Raise e
  end.

#[global] Instance result_fmap : FMap result := fun _ _ f m =>
  match m with
  | Ok a => Ok (f a)
  | Raise e => Raise e
  end.

Definition is_ok {A} (r : result A) : bool :=
  match r with Ok _ => true | Raise _ => false end.

(** ** Floats *)

(** [None] is nan. *)
Definition npfloat : Type := option Q.

Definition fin (q : Q) : npfloat := Some q.
Definition nan : npfloat := None.

Definition lift2 (f : Q → Q → Q) (x y : npfloat) : npfloat :=
  match x, y with
  | Some a, Some b => Some (f a b)
  | _, _ => None
  end.

Definition fadd : npfloat → npfloat → npfloat := lift2 Qplus.
Definition fsub : npfloat → npfloat → npfloat := lift2 Qminus.
Definition fmul : npfloat → npfloat → npfloat := lift2 Qmult.

(** Division; [0/0] is nan.  (A non-zero number over zero is an infinity in
    numpy; no division of the embedded code has that shape.) *)
Definition fdiv (x y : npfloat) : npfloat :=
  match x, y with
  | Some a, Some b => if Qeq_bool b 0 then None else Some (a / b)
  | _, _ => None
  end.

Definition Qgtb (x y : Q) : bool := negb (Qle_bool x y).
Definition Qgeb (x y : Q) : bool := Qle_bool y x.

(** [x > y] and [x <= y] on floats: false as soon as one side is nan. *)
Definition fgt (x y : npfloat) : bool :=
  match x, y with
  | Some a, Some b => Qgtb a b
  | _, _ => false
  end.

Definition fle (x y : npfloat) : bool :=
  match x, y with
  | Some a, Some b => Qle_bool a b
  | _, _ => false
  end.

(** ** numpy *)

Class Numeric := { np_sqrt : Q → Q }.

Definition Qsum (xs : list Q) : Q := foldr Qplus 0 xs.

Definition Qmean (xs : list Q) : Q :=
  Qsum xs / inject_Z (Z.of_nat (length xs)).

Definition Qvar (xs : list Q) : Q :=
  let m := Qmean xs in Qmean (map (fun x => (x - m) * (x - m)) xs).

Fixpoint insert_sorted (x : Q) (xs : list Q) : list Q :=
  match xs with
  | [] => [x]
  | y :: ys => if Qle_bool x y then x :: y :: ys else y :: insert_sorted x ys
  end.

Definition Qsort (xs : list Q) : list Q := foldr insert_sorted [] xs.

(** Linear-interpolation percentile of a non-empty list: the virtual index
    [(n-1) * p / 100] is split into its floor [k] and its fractional part
    [g], and the result is [s[k] + (s[k+1] - s[k]) * g] on the sorted data. *)
Definition Qpercentile (xs : list Q) (p : nat) : Q :=
  let s := Qsort xs in
  let vi := inject_Z (Z.of_nat (length s - 1)) * inject_Z (Z.of_nat p) / 100 in
  let k := Z.to_nat (Qfloor vi) in
  let g := vi - inject_Z (Qfloor vi) in
  let lo := nth k s 0 in
  let hi := nth (Nat.min (S k) (length s - 1)) s 0 in
  lo + (hi - lo) * g.

(** The finite entries of an array when none is nan. *)
Definition all_finite (xs : list npfloat) : option (list Q) := mapM id xs.

(** A reduction of a float array: nan when the array is empty or holds a
    nan, the reduction of its entries otherwise. *)
Definition reduce (f : list Q → Q) (xs : list npfloat) : npfloat :=
  match all_finite xs with
  | Some (q :: qs) => Some (f (q :: qs))
  | _ => None
  end.

Definition np_mean : list npfloat → npfloat := reduce Qmean.

(** [np.std]: the population standard deviation (ddof = 0). *)
Definition np_std `{Numeric} : list npfloat → npfloat :=
  reduce (fun qs => np_sqrt (Qvar qs)).

(** [np.percentile(xs, p)] with numpy's default (linear) method.  On an
    empty array numpy raises IndexError (it indexes the sorted array at
    -1); on an array that holds a nan the percentile is nan. *)
Definition np_percentile (xs : list npfloat) (p : nat) : result npfloat :=
  match xs with
  | [] => Raise (IndexError "index -1 is out of bounds for axis 0 with size 0")
  | _ :: _ => Ok (reduce (fun qs => Qpercentile qs p) xs)
  end.

(** ** sklearn.metrics.confusion_matrix

    Per its documented contract: both label vectors must have the same
    length; the class list is the sorted set of the values that occur in
    either vector; entry (i, j) counts the samples whose true class is the
    i-th and whose predicted class is the j-th.  The matrix is therefore
    C x C for C distinct classes: 1 x 1 when a single class occurs. *)

Fixpoint insert_label (x : Z) (xs : list Z) : list Z :=
  match xs with
  | [] => [x]
  | y :: ys =>
      if (x <? y)%Z then x :: y :: ys
      else if (x =? y)%Z then y :: ys
      else y :: insert_label x ys
  end.

Definition unique_labels (y_true y_pred : list Z) : list Z :=
  foldr insert_label [] (y_true ++ y_pred).

Definition count_pairs (y_true y_pred : list Z) (a b : Z) : Z :=
  Z.of_nat (length (filter (fun tp => tp.1 = a ∧ tp.2 = b) (zip y_true y_pred))).

Definition confusion_matrix (y_true y_pred : list Z) : result (list (list Z)) :=
  if negb (length y_true =? length y_pred)%nat
  then Raise (ValueError "Found input variables with inconsistent numbers of samples")
  else
    let labels := unique_labels y_true y_pred in
    Ok (map (fun a => map (fun b => count_pairs y_true y_pred a b) labels) labels).

(** [numpy.ndarray.ravel] of a 2-d array. *)
Definition ravel (m : list (list Z)) : list Z := concat m.

(** ** Windows and the trained network *)

(** A window is [L] rows of [F] features; a batch is a list of windows. *)
Definition window : Type := list (list npfloat).

(** ** pandas *)

Inductive cell : Type :=
| Num (q : Q)
| Str (s : string)
| NaN.

Record DataFrame : Type := {
  columns : list string;
  rows : list (list cell)
}.

(** One entry of the [details] list of a detection result: a dictionary
    with five fixed keys and the optional key ['sample_data']. *)
Record Detail : Type := {
  sequence_id : Z;
  detail_rows : string;
  detail_error : npfloat;
  detail_threshold : npfloat;
  severity : string;
  sample_data : option (gmap string string)
}.

(** What the running process is given: the trained network, the CSV reader,
    the files under [models/], sklearn's seeded shuffle, [str] on a table
    cell, and the mail transport with its configuration ([mail_send]
    stands for building and sending the message). *)
Class Runtime := {
  Model : Type;
  model_predict : Model → list window → result (list window);
  read_csv : string → result DataFrame;
  path_exists : string → bool;
  load_model : string → result Model;
  read_float : string → result npfloat;
  split_indices : nat → result (list nat * list nat);
  py_str : cell → string;
  mail_configured : bool;
  mail_send : Z → list Detail → Z → result unit
}.

(** ** models/train_model.py *)

Module TrainModel.

(** Mean squared difference of a window and its reconstruction, over all
    (timestep, feature) positions. *)
Definition window_mse (w w' : window) : npfloat :=
  np_mean (concat (zip_with (zip_with (fun a b => fmul (fsub a b) (fsub a b))) w w')).

(** [calculate_reconstruction_errors(model, X)] *)
Definition calculate_reconstruction_errors `{Runtime} (model : Model)
    (X : list window) : result (list npfloat) :=
  X_reconstructed ← model_predict model X;
  mret (zip_with window_mse X X_reconstructed).

(** [(errors > threshold).astype(int)] *)
Definition classify (errors : list npfloat) (thr : npfloat) : list Z :=
  map (fun e => if fgt e thr then 1%Z else 0%Z) errors.

(** The number of windows [classify] flags: the sum of the predictions. *)
Definition anomaly_count (errors : list npfloat) (thr : npfloat) : nat :=
  length (filter (fun p => p = 1%Z) (classify errors thr)).

(** [detect_anomalies(model, X, threshold)] *)
Definition detect_anomalies `{Runtime} (model : Model) (X : list window)
    (thr : npfloat) : result (list Z * list npfloat) :=
  errors ← calculate_reconstruction_errors model X;
  mret (classify errors thr, errors).

(** The metrics dictionary of [evaluate_model]: its eleven keys are fixed,
    so it is a record whose fields carry the keys' names. *)
Record Metrics : Type := {
  accuracy : Q;
  precision : Q;
  recall : Q;
  f1_score : Q;
  detection_rate : Q;
  false_positive_rate : Q;
  true_positives : Z;
  false_positives : Z;
  true_negatives : Z;
  false_negatives : Z;
  threshold : npfloat
}.

Definition div_counts (a b : Z) : Q := inject_Z a / inject_Z b.

(** [evaluate_model(y_true, y_pred, errors, threshold)].  Its first line
    unpacks the ravelled confusion matrix into four names, which raises
    ValueError unless the matrix has exactly four entries. *)
Definition evaluate_model (y_true y_pred : list Z) (errors : list npfloat)
    (thr : npfloat) : result Metrics :=
  cm ← confusion_matrix y_true y_pred;
  match ravel cm with
  | [tn; fp; fn; tp] =>
      let accuracy := div_counts (tp + tn) (tp + tn + fp + fn) in
      let precision := if (0 <? tp + fp)%Z then div_counts tp (tp + fp) else 0 in
      let recall := if (0 <? tp + fn)%Z then div_counts tp (tp + fn) else 0 in
      let f1_score :=
        if Qgtb (precision + recall) 0
        then 2 * (precision * recall) / (precision + recall) else 0 in
      let false_positive_rate :=
        if (0 <? fp + tn)%Z then div_counts fp (fp + tn) else 0 in
      Ok {| accuracy := accuracy;
            precision := precision;
            recall := recall;
            f1_score := f1_score;
            detection_rate := recall;
            false_positive_rate := false_positive_rate;
            true_positives := tp;
            false_positives := fp;
            true_negatives := tn;
            false_negatives := fn;
            threshold := thr |}
  | l =>
      if (length l <? 4)%nat
      then Raise (ValueError "not enough values to unpack (expected 4)")
      else Raise (ValueError "too many values to unpack (expected 4)")
  end.

End TrainModel.

(** ** The baseline threshold (train_model.determine_threshold) *)

Module Baseline.
Import TrainModel.


End Baseline.

(** ** models/optimize_threshold.py *)

Module OptimizeThreshold.
Import TrainModel.

(** A Python [for] loop whose body may raise: the state is threaded through
    the items in order and the first exception ends the loop. *)
Fixpoint for_each {S A : Type} (body : S → A → result S) (s : S)
    (items : list A) : result S :=
  match items with
  | [] => Ok s
  | x :: rest => s' ← body s x; for_each body s' rest
  end.

(** The [strategies] dictionary: nine distinct keys, so iterating over
    [strategies.items()] visits them in the order they are written.  Its
    values are computed when the dictionary is built: [np.mean] and
    [np.std] return (nan on an empty array), [np.percentile] may raise,
    and then no candidate is evaluated. *)
Definition strategies `{Numeric} (train_errors : list npfloat)
    : result (list (string * npfloat)) :=
  let mean := np_mean train_errors in
  let std := np_std train_errors in
  p95 ← np_percentile train_errors 95;
  p90 ← np_percentile train_errors 90;
  p85 ← np_percentile train_errors 85;
  p80 ← np_percentile train_errors 80;
  p75 ← np_percentile train_errors 75;
  Ok [ ("mean + 3*std", fadd mean (fmul (fin 3) std));
       ("mean + 2*std", fadd mean (fmul (fin 2) std));
       ("mean + 1*std", fadd mean (fmul (fin 1) std));
       ("mean", mean);
       ("95th percentile", p95);
       ("90th percentile", p90);
       ("85th percentile", p85);
       ("80th percentile", p80);
       ("75th percentile", p75) ].

(** [best_threshold], [best_metrics] and [best_strategy] are assigned
    together and start as [None] together: one optional record. *)
Record Best : Type := {
  best_threshold : npfloat;
  best_metrics : Metrics;
  best_strategy : string
}.

(** Evaluation of one candidate threshold on the held-out split. *)
Definition evaluate_candidate (test_errors : list npfloat) (y_test : list Z)
    (thr : npfloat) : result Metrics :=
  let test_pred := classify test_errors thr in
  evaluate_model y_test test_pred test_errors thr.

(** [metrics['detection_rate'] >= 0.85 and
     metrics['false_positive_rate'] <= target_fpr] *)
Definition meets_requirements (target_fpr : Q) (m : Metrics) : bool :=
  Qgeb (detection_rate m) (85 # 100) && Qle_bool (false_positive_rate m) target_fpr.

(** Body of the loop over [strategies.items()]. *)
Definition phase1_body (test_errors : list npfloat) (y_test : list Z)
    (target_fpr : Q) (best : option Best) (c : string * npfloat)
    : result (option Best) :=
  let '(strategy_name, thr) := c in
  metrics ← evaluate_candidate test_errors y_test thr;
  if meets_requirements target_fpr metrics then
    match best with
    | None =>
        Ok (Some {| best_threshold := thr; best_metrics := metrics;
                    best_strategy := strategy_name |})
    | Some b =>
        if Qgtb (detection_rate metrics) (detection_rate (best_metrics b))
        then Ok (Some {| best_threshold := thr; best_metrics := metrics;
                         best_strategy := strategy_name |})
        else Ok best
    end
  else Ok best.

Definition phase1 (test_errors : list npfloat) (y_test : list Z)
    (target_fpr : Q) (candidates : list (string * npfloat))
    : result (option Best) :=
  for_each (phase1_body test_errors y_test target_fpr) None candidates.

(** [score = detection_rate - fpr_penalty], the penalty doubled when the
    false-positive rate exceeds the target. *)
Definition balance_score (target_fpr : Q) (m : Metrics) : Q :=
  let fpr_penalty :=
    false_positive_rate m *
    (if Qgtb (false_positive_rate m) target_fpr then 2 else 1) in
  detection_rate m - fpr_penalty.

(** Body of the loop over [range(50, 100)]; the state is
    [(best_score, best)]. *)
Definition phase2_body (train_errors test_errors : list npfloat)
    (y_test : list Z) (target_fpr : Q) (st : Q * option Best)
    (percentile : nat) : result (Q * option Best) :=
  thr ← np_percentile train_errors percentile;
  metrics ← evaluate_candidate test_errors y_test thr;
  let score := balance_score target_fpr metrics in
  if Qgtb score st.1 then
    Ok (score, Some {| best_threshold := thr; best_metrics := metrics;
                       best_strategy := pretty percentile +:+ "th percentile" |})
  else Ok st.

(** [range(50, 100)] *)
Definition fallback_percentiles : list nat := seq 50 50.

(** The fallback block: the sweep starts from [best_score = -1]; the report
    printed after it formats [best_threshold] with [:.6f], which raises
    TypeError when it is still [None]. *)
Definition phase2 (train_errors test_errors : list npfloat) (y_test : list Z)
    (target_fpr : Q) : result Best :=
  st ← for_each (phase2_body train_errors test_errors y_test target_fpr)
                (- (1), None) fallback_percentiles;
  match st.2 with
  | Some b => Ok b
  | None => Raise (TypeError "unsupported format string passed to NoneType.__format__")
  end.

(** The returned dictionary: three fixed keys. *)
Record Optimal : Type := {
  opt_threshold : npfloat;
  opt_strategy : string;
  opt_test_metrics : Metrics
}.

(** [find_optimal_threshold] from the [strategies] dictionary on, that is,
    once both error arrays are computed. *)
Definition calibrate `{Numeric} (train_errors test_errors : list npfloat)
    (y_test : list Z) (target_fpr : Q) : result Optimal :=
  candidates ← strategies train_errors;
  best ← phase1 test_errors y_test target_fpr candidates;
  b ← match best with
      | Some b => Ok b
      | None => phase2 train_errors test_errors y_test target_fpr
      end;
  Ok {| opt_threshold := best_threshold b;
        opt_strategy := best_strategy b;
        opt_test_metrics := best_metrics b |}.


End OptimizeThreshold.

(** ** pandas and sklearn operations used by the preprocessors *)

Definition has_column (c : string) (df : DataFrame) : bool :=
  bool_decide (c ∈ columns df).

Fixpoint col_index (c : string) (cols : list string) : option nat :=
  match cols with
  | [] => None
  | c' :: rest => if String.eqb c c' then Some 0%nat else S <$> col_index c rest
  end.

(** [df[c]]: the cells of one column. *)
Definition column (c : string) (df : DataFrame) : list cell :=
  match col_index c (columns df) with
  | Some i => map (fun r => nth i r NaN) (rows df)
  | None => []
  end.

(** [df.drop(c, axis=1)] for a column that is present. *)
Definition drop_column (c : string) (df : DataFrame) : DataFrame :=
  match col_index c (columns df) with
  | Some i => {| columns := delete i (columns df);
                 rows := map (delete i) (rows df) |}
  | None => df
  end.

(** [df[cs]]: the listed columns, in the listed order. *)
Definition select (cs : list string) (df : DataFrame) : DataFrame :=
  {| columns := cs;
     rows := map (fun r => map (fun c =>
                    match col_index c (columns df) with
                    | Some i => nth i r NaN
                    | None => NaN
                    end) cs) (rows df) |}.

Definition is_missing (c : cell) : bool :=
  match c with NaN => true | _ => false end.

(** [df.dropna()]: a row goes as soon as one of its cells is missing. *)
Definition dropna (df : DataFrame) : DataFrame :=
  {| columns := columns df;
     rows := filter (fun r => existsb is_missing r = false) (rows df) |}.

Definition cell_float (c : cell) : result npfloat :=
  match c with
  | Num q => Ok (fin q)
  | NaN => Ok nan
  | Str _ => Raise (ValueError "could not convert string to float")
  end.

Definition float_cell (x : npfloat) : cell :=
  match x with Some q => Num q | None => NaN end.

(** The numeric array sklearn validates its input into. *)
Definition to_float_matrix (rs : list (list cell)) : result (list (list npfloat)) :=
  mapM (mapM cell_float) rs.

(** [sklearn.preprocessing.StandardScaler] after [fit]: per-feature mean,
    variance and scale.  Missing entries are disregarded in [fit] and kept
    by [transform]; the scale of a constant feature is 1. *)
Record StandardScaler : Type := {
  mean_ : list npfloat;
  var_ : list npfloat;
  scale_ : list npfloat
}.

Definition finite_entries (xs : list npfloat) : list Q := omap id xs.

Definition nan_reduce (f : list Q → Q) (xs : list npfloat) : npfloat :=
  match finite_entries xs with
  | [] => None
  | qs => Some (f qs)
  end.

Definition feature (j : nat) (m : list (list npfloat)) : list npfloat :=
  map (fun r => nth j r nan) m.

Definition scale_of `{Numeric} (v : npfloat) : npfloat :=
  match v with
  | Some q => if Qeq_bool q 0 then Some 1 else Some (np_sqrt q)
  | None => None
  end.

Definition scaler_fit `{Numeric} (m : list (list npfloat)) (n_features : nat)
    : result StandardScaler :=
  match m with
  | [] => Raise (ValueError "Found array with 0 sample(s) while a minimum of 1 is required")
  | _ =>
      let means := map (fun j => nan_reduce Qmean (feature j m)) (seq 0 n_features) in
      let vars := map (fun j => nan_reduce Qvar (feature j m)) (seq 0 n_features) in
      Ok {| mean_ := means; var_ := vars; scale_ := map scale_of vars |}
  end.

Definition scaler_transform (s : StandardScaler) (m : list (list npfloat))
    : list (list npfloat) :=
  map (fun r => zip_with (fun x ms => fdiv (fsub x ms.1) ms.2) r
                         (zip (mean_ s) (scale_ s))) m.

(** [scaler = StandardScaler(); scaler.fit_transform(frame)]: a new scaler,
    fit on the frame it is given and applied to that same frame. *)
Definition fit_transform `{Numeric} (frame : DataFrame)
    : result (StandardScaler * list (list npfloat)) :=
  m ← to_float_matrix (rows frame);
  s ← scaler_fit m (length (columns frame));
  Ok (s, scaler_transform s m).

(** ** models/preprocess.py *)

Module Preprocess.

(** [df_clean[present] = transformed]: the listed columns are overwritten,
    the others are kept. *)
Definition assign_columns (present : list string) (t : list (list npfloat))
    (df : DataFrame) : DataFrame :=
  {| columns := columns df;
     rows := zip_with (fun r tr =>
               zip_with (fun name old =>
                 match col_index name present with
                 | Some j => float_cell (nth j tr nan)
                 | None => old
                 end) (columns df) r) (rows df) t |}.

(** [clean_data(df, numeric_cols, categorical_cols=None)], with
    [categorical_cols] at its default, as every caller in the repository
    leaves it; [numeric_cols = None] is the empty list. *)
Definition clean_data `{Numeric} (df : DataFrame) (numeric_cols : list string)
    : result (DataFrame * option StandardScaler * list string) :=
  let df_clean := dropna df in
  let encoded_columns : list string := [] in
  let numeric_cols_present :=
    filter (fun c => has_column c df_clean = true) numeric_cols in
  match numeric_cols_present with
  | [] => Ok (df_clean, None, encoded_columns)
  | _ =>
      '(scaler, t) ← fit_transform (select numeric_cols_present df_clean);
      Ok (assign_columns numeric_cols_present t df_clean, Some scaler, encoded_columns)
  end.

(** [create_sequences(data, seq_length=10)] *)
Definition create_sequences {A : Type} (data : list A) (seq_length : nat)
    : list (list A) :=
  if (length data <=? seq_length)%nat then []
  else map (fun i => take seq_length (drop i data))
           (seq 0 (length data - seq_length)).

Definition is_str (c : cell) : bool :=
  match c with Str _ => true | _ => false end.

(** [y.dtype == 'object']: the column holds text. *)
Definition dtype_object (y : list cell) : bool := existsb is_str y.

(** One value through [y.map({'benign': 0, 'malicious': 1})]: a value that
    is not a key of the dictionary becomes missing. *)
Definition map_label (c : cell) : cell :=
  match c with
  | Str s =>
      if String.eqb s "benign" then Num 0
      else if String.eqb s "malicious" then Num 1
      else NaN
  | _ => NaN
  end.

(** The label vector [y] as [preprocess_pipeline] holds it before windowing:
    the label column, encoded when it holds text. *)
Definition label_vector (c : string) (df : DataFrame) : list cell :=
  let y := column c df in
  if dtype_object y then map map_label y else y.

Inductive Features : Type :=
| Sequences (X : list (list (list cell)))
| Table (X : list (list cell)).

Definition n_samples (X : Features) : nat :=
  match X with Sequences X => length X | Table X => length X end.

(** What [preprocess_pipeline] hands to [split_train_test]. *)
Record Prepared : Type := {
  prep_X : Features;
  prep_y : option (list cell);
  prep_scaler : option StandardScaler;
  prep_encoded_columns : list string;
  prep_feature_names : list string
}.

(** [preprocess_pipeline] between [load_csv] and the train/test split. *)
Definition prepare `{Numeric} (df : DataFrame) (numeric_cols : list string)
    (label_col : option string) (create_seq : bool) (seq_length : nat)
    : result Prepared :=
  let '(y, df) :=
    match label_col with
    | Some c =>
        if negb (String.eqb c "") && has_column c df then
          (Some (label_vector c df), drop_column c df)
        else (None, df)
    | None => (None, df)
    end in
  '(df_clean, scaler, encoded_cols) ← clean_data df numeric_cols;
  if create_seq then
    let X := create_sequences (rows df_clean) seq_length in
    let y :=
      match y with
      | Some y => if (0 <? length X)%nat then Some (drop seq_length y) else Some y
      | None => None
      end in
    Ok {| prep_X := Sequences X; prep_y := y; prep_scaler := scaler;
          prep_encoded_columns := encoded_cols;
          prep_feature_names := columns df_clean |}
  else
    Ok {| prep_X := Table (rows df_clean); prep_y := y; prep_scaler := scaler;
          prep_encoded_columns := encoded_cols;
          prep_feature_names := columns df_clean |}.

Definition pick {A : Type} (l : list A) (idx : list nat) : list A :=
  omap (fun i => l !! i) idx.

Definition pick_features (X : Features) (idx : list nat) : Features :=
  match X with
  | Sequences X => Sequences (pick X idx)
  | Table X => Table (pick X idx)
  end.

(** The dictionary [preprocess_pipeline] returns; the label keys are absent
    when there is no label column. *)
Record Pipeline : Type := {
  X_train : Features;
  X_test : Features;
  y_train : option (list cell);
  y_test : option (list cell);
  scaler : option StandardScaler;
  encoded_columns : list string;
  feature_names : list string
}.

(** [split_train_test(X, y)]: sklearn refuses arrays of different lengths
    and otherwise indexes both with one seeded shuffle of the rows. *)
Definition split_train_test `{Runtime} (p : Prepared) : result Pipeline :=
  let n := n_samples (prep_X p) in
  match prep_y p with
  | Some y =>
      if negb (length y =? n)%nat
      then Raise (ValueError "Found input variables with inconsistent numbers of samples")
      else
        '(tr, te) ← split_indices n;
        Ok {| X_train := pick_features (prep_X p) tr;
              X_test := pick_features (prep_X p) te;
              y_train := Some (pick y tr); y_test := Some (pick y te);
              scaler := prep_scaler p;
              encoded_columns := prep_encoded_columns p;
              feature_names := prep_feature_names p |}
  | None =>
      '(tr, te) ← split_indices n;
      Ok {| X_train := pick_features (prep_X p) tr;
            X_test := pick_features (prep_X p) te;
            y_train := None; y_test := None;
            scaler := prep_scaler p;
            encoded_columns := prep_encoded_columns p;
            feature_names := prep_feature_names p |}
  end.

(** [preprocess_pipeline(file_path, numeric_cols, categorical_cols=None,
    label_col=None, create_seq=False, seq_length=10)] *)
Definition preprocess_pipeline `{Numeric} `{Runtime} (file_path : string)
    (numeric_cols : list string) (label_col : option string)
    (create_seq : bool) (seq_length : nat) : result Pipeline :=
  df ← read_csv file_path;
  p ← prepare df numeric_cols label_col create_seq seq_length;
  split_train_test p.

End Preprocess.

(** ** app.py *)

Module App.
Import TrainModel.

(** A value stored in the dictionary [detect_anomalies] returns. *)
Inductive pyval : Type :=
| VInt (n : Z)
| VFloat (x : npfloat)
| VStr (s : string)
| VDetails (l : list Detail).

Definition expected_features : list string :=
  ["orig_pkts"; "resp_pkts"; "orig_bytes"; "resp_bytes"].

(** [repr] of a list of strings, as an f-string interpolates it. *)
Definition py_list_repr (l : list string) : string :=
  "[" +:+ String.concat ", " (map (fun s => "'" +:+ s +:+ "'") l) +:+ "]".

(** The dictionary returned when detection does not complete. *)
Definition error_result (msg : string) : gmap string pyval :=
  <["error" := VStr msg]>
  (<["anomalies_count" := VInt 0]>
  (<["details" := VDetails []]>
  (<["total_samples" := VInt 0]> ∅))).

Inductive alert_outcome : Type :=
| AlertSkipped
| AlertSent
| AlertFailed.

Section WithRuntime.
Context `{Numeric} `{Runtime}.

(** The module's globals.  ([SCALER] is declared next to them and is never
    read or assigned.) *)
Record Globals : Type := {
  MODEL : option Model;
  THRESHOLD : option npfloat
}.

(** [load_ml_model()]: returns [(MODEL, THRESHOLD)] and the globals as it
    leaves them; an exception leaves what was assigned before it. *)
Definition load_ml_model (g : Globals)
    : result (option Model * npfloat) * Globals :=
  let loaded : result Globals :=
    match MODEL g with
    | None =>
        if path_exists "models/lstm_model.keras" then
          m ← load_model "models/lstm_model.keras";
          Ok {| MODEL := Some m; THRESHOLD := THRESHOLD g |}
        else Ok g
    | Some _ => Ok g
    end in
  match loaded with
  | Raise e => (Raise e, g)
  | Ok g1 =>
      match THRESHOLD g1 with
      | Some t => (Ok (MODEL g1, t), g1)
      | None =>
          let threshold_path :=
            if negb (path_exists "models/threshold_optimized.txt")
            then "models/threshold.txt"
            else "models/threshold_optimized.txt" in
          if path_exists threshold_path then
            match read_float threshold_path with
            | Ok t => (Ok (MODEL g1, t), {| MODEL := MODEL g1; THRESHOLD := Some t |})
            | Raise e => (Raise e, g1)
            end
          else
            (Ok (MODEL g1, fin (12 # 100)),
             {| MODEL := MODEL g1; THRESHOLD := Some (fin (12 # 100)) |})
      end
  end.

(** The frame [preprocess_for_detection] normalizes: the uploaded table
    without [ts] and [label], or the required columns it lacks. *)
Definition required_frame (df : DataFrame) : result DataFrame :=
  let df := if has_column "ts" df then drop_column "ts" df else df in
  let df := if has_column "label" df then drop_column "label" df else df in
  let missing_features :=
    filter (fun f => has_column f df = false) expected_features in
  match missing_features with
  | [] => Ok (select expected_features df)
  | _ => Raise (ValueError ("Missing required features: " +:+ py_list_repr missing_features))
  end.

(** The windowing loop of [preprocess_for_detection] ([seq_length = 10]). *)
Definition request_windows (df_normalized : list (list npfloat))
    : result (list window) :=
  let seq_length := 10%nat in
  if (length df_normalized <=? seq_length)%nat
  then Raise (ValueError "File must have more than 10 rows for sequence analysis")
  else Ok (map (fun i => take seq_length (drop i df_normalized))
               (seq 0 (length df_normalized - seq_length))).

(** [preprocess_for_detection(file_path)] *)
Definition preprocess_for_detection (file_path : string)
    : result (list window * DataFrame * list string) :=
  df ← read_csv file_path;
  let original_df := df in
  df ← required_frame df;
  '(scaler, df_normalized) ← fit_transform df;
  sequences ← request_windows df_normalized;
  Ok (sequences, original_df, expected_features).

(** [send_email_alert]: every exception of its body is caught inside. *)
Definition send_email_alert (anomalies_count : Z) (details : list Detail)
    (total_samples : Z) : alert_outcome :=
  if negb mail_configured then AlertSkipped
  else match mail_send anomalies_count details total_samples with
       | Ok _ => AlertSent
       | Raise _ => AlertFailed
       end.

Definition make_detail (original_df : DataFrame) (thr : npfloat)
    (a : nat * npfloat) : Detail :=
  let '(idx, err) := a in
  {| sequence_id := Z.of_nat idx;
     detail_rows := pretty idx +:+ "-" +:+ pretty (idx + 10)%nat;
     detail_error := err;
     detail_threshold := thr;
     severity := if fgt err (fmul thr (fin (3 # 2))) then "High" else "Medium";
     sample_data :=
       match rows original_df !! idx with
       | Some r => Some (list_to_map (zip (columns original_df) (map py_str r)))
       | None => None
       end |}.

(** [anomaly_flags = errors > threshold] and then
    [np.where(anomaly_flags)[0]]: the flagged indices, each with its error. *)
Definition anomalies (errors : list npfloat) (thr : npfloat)
    : list (nat * npfloat) :=
  filter (fun a => fgt a.2 thr = true) (imap pair errors).

(** The [try] block of [detect_anomalies] once the model is known to be
    loaded; the second component is the alert, when one was attempted. *)
Definition detect_with (model : Model) (thr : npfloat) (file_path : string)
    : result (gmap string pyval * option alert_outcome) :=
  '(sequences, original_df, features) ← preprocess_for_detection file_path;
  reconstructed ← model_predict model sequences;
  let errors := zip_with window_mse sequences reconstructed in
  let anomaly_indices := anomalies errors thr in
  let details := map (make_detail original_df thr) (take 100 anomaly_indices) in
  let n_anomalies := Z.of_nat (length anomaly_indices) in
  let n_sequences := Z.of_nat (length sequences) in
  let result : gmap string pyval :=
    <["anomalies_count" := VInt n_anomalies]>
    (<["details" := VDetails details]>
    (<["total_samples" := VInt n_sequences]>
    (<["threshold" := VFloat thr]>
    (<["percentage" :=
         if (0 <? n_sequences)%Z
         then VFloat (fin (inject_Z n_anomalies / inject_Z n_sequences * 100))
         else VInt 0]> ∅)))) in
  let alert :=
    if (0 <? n_anomalies)%Z
    then Some (send_email_alert n_anomalies details n_sequences)
    else None in
  Ok (result, alert).

(** The [try] block of [detect_anomalies]. *)
Definition detect_try (file_path : string) (g : Globals)
    : result (gmap string pyval) * Globals :=
  match load_ml_model g with
  | (Raise e, g') => (Raise e, g')
  | (Ok (None, _), g') =>
      (Ok (error_result "Model not loaded. Please train the model first."), g')
  | (Ok (Some model, thr), g') => (fst <$> detect_with model thr file_path, g')
  end.

(** [detect_anomalies(file_path)]: the [try] block under its
    [except Exception] handler. *)
Definition detect_anomalies (file_path : string) (g : Globals)
    : gmap string pyval * Globals :=
  match detect_try file_path g with
  | (Ok result, g') => (result, g')
  | (Raise e, g') => (error_result (exn_str e), g')
  end.

End WithRuntime.

End App.

(** ** The upload endpoint (app.upload_file) *)

(** What the handler asks of the web framework, the file system and the
    database: saving the uploaded file to a new temporary [.csv] file
    (its path), inserting and committing a [ScanResult] row built from
    [result['anomalies_count']] and [json.dumps(result['details'])] (the
    new row's id), and removing the temporary file if it exists.  Each may
    return or raise. *)
Class Web := {
  save_upload : string → result string;
  store_scan : App.pyval → App.pyval → result Z;
  remove_temp : string → result unit
}.

Module Upload.
Import App.

(** [s.endswith(suffix)] *)
Definition endswith (s suffix : string) : bool :=
  String.eqb (substring (String.length s - String.length suffix)
                        (String.length suffix) s) suffix.

Definition json_error (msg : string) : gmap string pyval :=
  {[ "error" := VStr msg ]}.

(** The outer [except Exception] handler. *)
Definition server_error (e : exn) : gmap string pyval * Z :=
  (json_error ("Server error: " +:+ exn_str e), 500%Z).

Section WithWeb.
Context `{Numeric} `{Runtime} `{Web}.

(** The inner [try] block after the detection: the response it returns,
    or the exception that leaves it. *)
Definition store_detection (detection : gmap string pyval)
    : result (gmap string pyval * Z) :=
  match detection !! "error" with
  | Some _ => Ok (detection, 500%Z)
  | None =>
      match detection !! "anomalies_count" with
      | None => Raise (OtherError "'anomalies_count'")
      | Some count =>
          match detection !! "details" with
          | None => Raise (OtherError "'details'")
          | Some details =>
              scan_id ← store_scan count details;
              Ok (<["scan_id" := VInt scan_id]> detection, 200%Z)
          end
      end
  end.

(** [upload_file()]: [file] is the name of the uploaded file, [None] when
    the request has no ['file'] part.  An exception of the [finally]
    block replaces the response or the exception of the [try] block. *)
Definition upload_file (file : option string) (g : Globals)
    : (gmap string pyval * Z) * Globals :=
  match file with
  | None => ((json_error "No file provided", 400%Z), g)
  | Some filename =>
      if String.eqb filename "" then
        ((json_error "No file selected", 400%Z), g)
      else if negb (endswith filename ".csv") then
        ((json_error "Only CSV files are allowed", 400%Z), g)
      else
        match save_upload filename with
        | Raise e => (server_error e, g)
        | Ok temp_path =>
            let '(detection, g') := detect_anomalies temp_path g in
            let outcome := store_detection detection in
            match remove_temp temp_path with
            | Raise e => (server_error e, g')
            | Ok _ =>
                match outcome with
                | Ok response => (response, g')
                | Raise e => (server_error e, g')
                end
            end
        end
  end.

End WithWeb.

End Upload.

(** * Properties *)

(** ** Fixtures for closed examples *)

(** A square root that is exact on squares of rationals: the integer
    square roots of the numerator and the denominator of the fraction in
    lowest terms. *)
Definition exact_sqrt : Numeric :=
  {| np_sqrt q := let r := Qred q in Z.sqrt (Qnum r) # Pos.sqrt (Qden r) |}.

(** ** Comparisons *)

Lemma Qgtb_lt (x y : Q) : Qgtb x y = true ↔ y < x.
Proof.
  unfold Qgtb. rewrite negb_true_iff, <- not_true_iff_false, Qle_bool_iff.
  split; [apply Qnot_le_lt | apply Qlt_not_le].
Qed.

Lemma Qgtb_le (x y : Q) : Qgtb x y = false ↔ x <= y.
Proof.
  unfold Qgtb. rewrite negb_false_iff. apply Qle_bool_iff.
Qed.

Lemma Qgeb_le (x y : Q) : Qgeb x y = true ↔ y <= x.
Proof. apply Qle_bool_iff. Qed.

(** Raising the threshold can only unflag a window. *)
Lemma fgt_antitone (e t1 t2 : npfloat) :
  fle t1 t2 = true → fgt e t2 = true → fgt e t1 = true.
Proof.
  destruct e as [e|], t1 as [t1|], t2 as [t2|]; simpl; try discriminate.
  rewrite Qle_bool_iff, !Qgtb_lt. intros Hle Hlt.
  eapply Qle_lt_trans; eassumption.
Qed.

(** ** Classification (train_model.detect_anomalies, app.detect_anomalies) *)

Section Classification.
Import TrainModel.

Lemma anomaly_count_cons (e : npfloat) (errors : list npfloat) (thr : npfloat) :
  anomaly_count (e :: errors) thr =
  ((if fgt e thr then 1 else 0) + anomaly_count errors thr)%nat.
Proof.
  unfold anomaly_count. simpl. destruct (fgt e thr).
  - rewrite filter_cons_True by reflexivity. reflexivity.
  - rewrite filter_cons_False by discriminate. reflexivity.
Qed.

Lemma anomaly_count_monotone (errors : list npfloat) (t1 t2 : npfloat) :
  fle t1 t2 = true → (anomaly_count errors t2 ≤ anomaly_count errors t1)%nat.
Proof.
  intros Hle. induction errors as [|e errors IH].
  - reflexivity.
  - rewrite !anomaly_count_cons.
    destruct (fgt e t2) eqn:E2.
    + rewrite (fgt_antitone e t1 t2 Hle E2). lia.
    + destruct (fgt e t1); lia.
Qed.

(** The application counts the flagged indices: the same number. *)
Lemma length_flagged {I : Type} (f : nat → I) (errors : list npfloat) (thr : npfloat) :
  length (filter (fun a : I * npfloat => fgt a.2 thr = true)
                 (imap (fun i e => (f i, e)) errors))
  = anomaly_count errors thr.
Proof.
  revert f. induction errors as [|e errors IH]; intros f.
  - reflexivity.
  - rewrite imap_cons, anomaly_count_cons. destruct (fgt e thr) eqn:E.
    + rewrite filter_cons_True by exact E. simpl. f_equal. apply (IH (f ∘ S)).
    + rewrite filter_cons_False by (simpl; rewrite E; discriminate).
      apply (IH (f ∘ S)).
Qed.

Lemma length_anomalies (errors : list npfloat) (thr : npfloat) :
  length (App.anomalies errors thr) = anomaly_count errors thr.
Proof. apply (length_flagged (fun i => i)). Qed.

(** C9. Classification is monotone in the threshold: for a fixed vector of
    reconstruction errors and thresholds [t1 <= t2], no more windows are
    flagged anomalous ([error > threshold]) under [t2] than under [t1];
    this holds for the predictions of [train_model.detect_anomalies] and
    for the flagged indices of [app.detect_anomalies]. *)
Theorem C9_classification_monotone (errors : list npfloat) (t1 t2 : npfloat) :
  fle t1 t2 = true →
  (anomaly_count errors t2 ≤ anomaly_count errors t1)%nat
  ∧ (length (App.anomalies errors t2) ≤ length (App.anomalies errors t1))%nat.
Proof.
  intros Hle. rewrite !length_anomalies.
  split; apply anomaly_count_monotone, Hle.
Qed.

Lemma C9_witness :
  fle (fin 1) (fin 2) = true
  ∧ ((anomaly_count [fin 0; fin (3 # 2); fin 3; nan] (fin 2)
      ≤ anomaly_count [fin 0; fin (3 # 2); fin 3; nan] (fin 1))%nat
     ∧ (length (App.anomalies [fin 0; fin (3 # 2); fin 3; nan] (fin 2))
        ≤ length (App.anomalies [fin 0; fin (3 # 2); fin 3; nan] (fin 1)))%nat).
Proof.
  split; [reflexivity|].
  apply (C9_classification_monotone [fin 0; fin (3 # 2); fin 3; nan] (fin 1) (fin 2)).
  reflexivity.
Defined.

End Classification.

(** ** The windower (preprocess.create_sequences) *)

Section Windower.
Import Preprocess.

Lemma create_sequences_short {A : Type} (data : list A) (L : nat) :
  (length data ≤ L)%nat → create_sequences data L = [].
Proof.
  intros Hle. unfold create_sequences.
  destruct (Nat.leb_spec (length data) L); [reflexivity | lia].
Qed.

Lemma create_sequences_long {A : Type} (data : list A) (L : nat) :
  (L < length data)%nat →
  create_sequences data L =
  (fun i => take L (drop i data)) <$> seq 0 (length data - L).
Proof.
  intros Hlt. unfold create_sequences.
  destruct (Nat.leb_spec (length data) L); [lia | reflexivity].
Qed.

Lemma length_create_sequences {A : Type} (data : list A) (L : nat) :
  length (create_sequences data L) = (length data - L)%nat.
Proof.
  destruct (Nat.le_gt_cases (length data) L) as [Hle|Hlt].
  - rewrite create_sequences_short by exact Hle. simpl. lia.
  - rewrite create_sequences_long by exact Hlt.
    rewrite length_fmap, length_seq. reflexivity.
Qed.

Lemma lookup_create_sequences {A : Type} (data : list A) (L i : nat) :
  (i < length data - L)%nat →
  create_sequences data L !! i = Some (take L (drop i data)).
Proof.
  intros Hi. rewrite create_sequences_long by lia.
  rewrite list_lookup_fmap, lookup_seq_lt by exact Hi. reflexivity.
Qed.

(** The Python slice [data[i : i+L]], position by position. *)
Lemma lookup_slice {A : Type} (data : list A) (L i j : nat) :
  (j < L)%nat → take L (drop i data) !! j = data !! (i + j)%nat.
Proof.
  intros Hj. rewrite lookup_take_lt by exact Hj. apply lookup_drop.
Qed.

Lemma length_slice {A : Type} (data : list A) (L i : nat) :
  (i + L ≤ length data)%nat → length (take L (drop i data)) = L.
Proof.
  intros Hi. rewrite length_take, length_drop. lia.
Qed.

Lemma Forall_slice {A : Type} (P : A → Prop) (data : list A) (L i : nat) :
  Forall P data → Forall P (take L (drop i data)).
Proof.
  intros HP. apply Forall_take, Forall_drop, HP.
Qed.

(** C4. For a matrix of N rows with F features each and a window length
    L > 0: when N > L the windower returns exactly N - L windows, window i
    is the slice rows[i : i+L] (its j-th row is row i + j) and has shape
    (L, F); when N <= L it returns no window.  [create_sequences] is a
    total function: it has no error result. *)
Theorem C4_windower {A : Type} (data : list (list A)) (L F : nat) :
  (0 < L)%nat →
  Forall (fun r => length r = F) data →
  ((L < length data)%nat →
     length (create_sequences data L) = (length data - L)%nat
     ∧ ∀ i, (i < length data - L)%nat →
         ∃ w, create_sequences data L !! i = Some w
              ∧ w = take L (drop i data)
              ∧ (∀ j, (j < L)%nat → w !! j = data !! (i + j)%nat)
              ∧ length w = L
              ∧ Forall (fun r => length r = F) w)
  ∧ ((length data ≤ L)%nat → create_sequences data L = []).
Proof.
  intros HL HF. split.
  - intros Hlt. split; [apply length_create_sequences|].
    intros i Hi. exists (take L (drop i data)).
    split; [apply lookup_create_sequences, Hi|].
    split; [reflexivity|].
    split; [intros j Hj; apply lookup_slice, Hj|].
    split; [apply length_slice; lia|].
    apply Forall_slice, HF.
  - apply create_sequences_short.
Qed.

Lemma C4_witness :
  (0 < 2)%nat
  ∧ Forall (fun r => length r = 2%nat) [[1; 2]; [3; 4]; [5; 6]; [7; 8]]%nat
  ∧ (((2 < length [[1; 2]; [3; 4]; [5; 6]; [7; 8]]%nat)%nat →
       length (create_sequences [[1; 2]; [3; 4]; [5; 6]; [7; 8]]%nat 2)
       = (length [[1; 2]; [3; 4]; [5; 6]; [7; 8]]%nat - 2)%nat
       ∧ ∀ i, (i < length [[1; 2]; [3; 4]; [5; 6]; [7; 8]]%nat - 2)%nat →
           ∃ w, create_sequences [[1; 2]; [3; 4]; [5; 6]; [7; 8]]%nat 2 !! i = Some w
                ∧ w = take 2 (drop i [[1; 2]; [3; 4]; [5; 6]; [7; 8]]%nat)
                ∧ (∀ j, (j < 2)%nat →
                     w !! j = [[1; 2]; [3; 4]; [5; 6]; [7; 8]]%nat !! (i + j)%nat)
                ∧ length w = 2%nat
                ∧ Forall (fun r => length r = 2%nat) w)
     ∧ ((length [[1; 2]; [3; 4]; [5; 6]; [7; 8]]%nat ≤ 2)%nat →
        create_sequences [[1; 2]; [3; 4]; [5; 6]; [7; 8]]%nat 2 = [])).
Proof.
  split; [lia|].
  split; [repeat constructor|].
  apply (C4_windower [[1; 2]; [3; 4]; [5; 6]; [7; 8]]%nat 2 2);
    [lia | repeat constructor].
Defined.

(** The copy of the windowing loop in [app.preprocess_for_detection]
    returns the windows of [create_sequences] for more than ten rows, and
    reports ten rows or fewer as a ValueError. *)
Lemma request_windows_spec (m : list (list npfloat)) :
  App.request_windows m =
  if (length m <=? 10)%nat
  then Raise (ValueError "File must have more than 10 rows for sequence analysis")
  else Ok (create_sequences m 10).
Proof.
  unfold App.request_windows, create_sequences.
  destruct (length m <=? 10)%nat; reflexivity.
Qed.

End Windower.

(** ** The threshold calibrator, phase 1 *)

Section Calibrator.
Import TrainModel OptimizeThreshold.

Definition qualifies (target_fpr : Q) (m : Metrics) : Prop :=
  meets_requirements target_fpr m = true.

(** Candidate [k], with metrics [m], is the first-evaluated candidate with
    the highest detection rate among the qualifying ones: no qualifying
    candidate detects more, and every earlier qualifying one detects
    strictly less. *)
Definition first_best (target_fpr : Q) (ms : list Metrics) (k : nat)
    (m : Metrics) : Prop :=
  ms !! k = Some m
  ∧ qualifies target_fpr m
  ∧ (∀ j m', ms !! j = Some m' → qualifies target_fpr m' →
       detection_rate m' <= detection_rate m)
  ∧ (∀ j m', (j < k)%nat → ms !! j = Some m' → qualifies target_fpr m' →
       detection_rate m' < detection_rate m).

(** What phase 1 has selected after evaluating [cands], whose metrics are
    [ms]. *)
Definition phase1_outcome (target_fpr : Q) (cands : list (string * npfloat))
    (ms : list Metrics) (best : option Best) : Prop :=
  match best with
  | None => ∀ m, m ∈ ms → ¬ qualifies target_fpr m
  | Some b =>
      ∃ k, cands !! k = Some (best_strategy b, best_threshold b)
           ∧ first_best target_fpr ms k (best_metrics b)
  end.

Lemma for_each_app {S A : Type} (body : S → A → result S) (s s' : S)
    (l1 l2 : list A) :
  for_each body s l1 = Ok s' →
  for_each body s (l1 ++ l2) = for_each body s' l2.
Proof.
  revert s. induction l1 as [|x l1 IH]; intros s; simpl.
  - intros [= ->]. reflexivity.
  - destruct (body s x) as [s1|e]; simpl; [apply IH | discriminate].
Qed.

Lemma first_best_snoc_keep (tf : Q) (ms : list Metrics) (k : nat)
    (b m : Metrics) :
  first_best tf ms k b →
  (qualifies tf m → detection_rate m <= detection_rate b) →
  first_best tf (ms ++ [m]) k b.
Proof.
  intros (Hk & Hq & Hmax & Hfirst) Hm.
  split; [apply lookup_app_l_Some, Hk|]. split; [exact Hq|]. split.
  - intros j m' Hj Hq'. apply lookup_snoc_Some in Hj as [[_ Hj]|[_ <-]].
    + eapply Hmax; eassumption.
    + apply Hm, Hq'.
  - intros j m' Hlt Hj Hq'. apply lookup_snoc_Some in Hj as [[_ Hj]|[-> _]].
    + eapply Hfirst; eassumption.
    + apply lookup_lt_Some in Hk. lia.
Qed.

Lemma first_best_snoc_new (tf : Q) (ms : list Metrics) (m : Metrics) :
  qualifies tf m →
  (∀ j m', ms !! j = Some m' → qualifies tf m' →
     detection_rate m' < detection_rate m) →
  first_best tf (ms ++ [m]) (length ms) m.
Proof.
  intros Hq Hlt. split; [apply list_lookup_middle; reflexivity|].
  split; [exact Hq|]. split.
  - intros j m' Hj Hq'. apply lookup_snoc_Some in Hj as [[_ Hj]|[_ <-]].
    + apply Qlt_le_weak. eapply Hlt; eassumption.
    + apply Qle_refl.
  - intros j m' Hj' Hj Hq'. apply lookup_snoc_Some in Hj as [[_ Hj]|[-> _]].
    + eapply Hlt; eassumption.
    + lia.
Qed.

(** One iteration of the loop over the strategies keeps the outcome. *)
Lemma phase1_body_outcome (xs : list npfloat) (ys : list Z) (tf : Q)
    (pc : list (string * npfloat)) (pm : list Metrics) (best : option Best)
    (c : string * npfloat) (m : Metrics) :
  length pc = length pm →
  phase1_outcome tf pc pm best →
  evaluate_candidate xs ys c.2 = Ok m →
  ∃ best', phase1_body xs ys tf best c = Ok best'
           ∧ phase1_outcome tf (pc ++ [c]) (pm ++ [m]) best'.
Proof.
  intros Hlen Hout Hev. destruct c as [name thr]. simpl in Hev.
  unfold phase1_body. rewrite Hev. simpl.
  destruct (meets_requirements tf m) eqn:Hq.
  - destruct best as [b|].
    + destruct Hout as (k & Hk & Hb).
      destruct (Qgtb (detection_rate m) (detection_rate (best_metrics b))) eqn:Hgt.
      * eexists. split; [reflexivity|]. exists (length pc). simpl.
        split; [apply list_lookup_middle; reflexivity|].
        rewrite Hlen. apply first_best_snoc_new; [exact Hq|].
        intros j m' Hj Hq'. apply Qgtb_lt in Hgt.
        destruct Hb as (_ & _ & Hmax & _).
        eapply Qle_lt_trans; [eapply Hmax; eassumption | exact Hgt].
      * eexists. split; [reflexivity|]. exists k.
        split; [apply lookup_app_l_Some, Hk|].
        apply first_best_snoc_keep; [exact Hb|].
        intros _. apply Qgtb_le, Hgt.
    + eexists. split; [reflexivity|]. exists (length pc). simpl.
      split; [apply list_lookup_middle; reflexivity|].
      rewrite Hlen. apply first_best_snoc_new; [exact Hq|].
      intros j m' Hj Hq'. exfalso. apply (Hout m'); [|exact Hq'].
      eapply list_elem_of_lookup_2, Hj.
  - exists best. split; [reflexivity|]. destruct best as [b|].
    + destruct Hout as (k & Hk & Hb). exists k.
      split; [apply lookup_app_l_Some, Hk|].
      apply first_best_snoc_keep; [exact Hb|].
      intros Hq'. unfold qualifies in Hq'. congruence.
    + intros m' Hin Hq'. apply elem_of_app in Hin as [Hin|Hin].
      * apply (Hout m' Hin Hq').
      * apply list_elem_of_singleton in Hin as ->.
        unfold qualifies in Hq'. congruence.
Qed.

(** The loop, from any state that describes the candidates seen so far. *)
Lemma phase1_loop_outcome (xs : list npfloat) (ys : list Z) (tf : Q)
    (cands : list (string * npfloat)) (ms : list Metrics) :
  Forall2 (fun c m => evaluate_candidate xs ys c.2 = Ok m) cands ms →
  ∀ pc pm best,
    length pc = length pm →
    phase1_outcome tf pc pm best →
    ∃ best', for_each (phase1_body xs ys tf) best cands = Ok best'
             ∧ phase1_outcome tf (pc ++ cands) (pm ++ ms) best'.
Proof.
  induction 1 as [|c m cands ms Hev _ IH]; intros pc pm best Hlen Hout.
  - exists best. rewrite !app_nil_r. split; [reflexivity | exact Hout].
  - destruct (phase1_body_outcome xs ys tf pc pm best c m Hlen Hout Hev)
      as (best1 & Hstep & Hout1).
    destruct (IH (pc ++ [c]) (pm ++ [m]) best1) as (best' & Hrest & Hout').
    + rewrite !length_app, Hlen. reflexivity.
    + exact Hout1.
    + exists best'. simpl. rewrite Hstep. simpl.
      rewrite <- !app_assoc in Hout'. split; [exact Hrest | exact Hout'].
Qed.

Lemma evaluations_exist (xs : list npfloat) (ys : list Z)
    (cands : list (string * npfloat)) :
  Forall (fun c => is_ok (evaluate_candidate xs ys c.2) = true) cands →
  ∃ ms, Forall2 (fun c m => evaluate_candidate xs ys c.2 = Ok m) cands ms.
Proof.
  induction 1 as [|c cands Hc _ [ms IH]].
  - exists []. constructor.
  - destruct (evaluate_candidate xs ys c.2) as [m|e] eqn:E; [|discriminate].
    exists (m :: ms). constructor; assumption.
Qed.

Lemma phase1_selects (xs : list npfloat) (ys : list Z) (tf : Q)
    (cands : list (string * npfloat)) :
  Forall (fun c => is_ok (evaluate_candidate xs ys c.2) = true) cands →
  ∃ ms best,
    Forall2 (fun c m => evaluate_candidate xs ys c.2 = Ok m) cands ms
    ∧ phase1 xs ys tf cands = Ok best
    ∧ phase1_outcome tf cands ms best.
Proof.
  intros Hok. destruct (evaluations_exist xs ys cands Hok) as [ms Hms].
  destruct (phase1_loop_outcome xs ys tf cands ms Hms [] [] None)
    as (best & Hrun & Hout).
  - reflexivity.
  - intros m Hin. apply elem_of_nil in Hin. contradiction.
  - exists ms, best. split; [exact Hms|]. split; [exact Hrun | exact Hout].
Qed.

(** Either every candidate's evaluation returns, or there is a first
    candidate whose evaluation raises. *)
Lemma evaluations_return_or_raise (xs : list npfloat) (ys : list Z)
    (cands : list (string * npfloat)) :
  Forall (fun c => is_ok (evaluate_candidate xs ys c.2) = true) cands
  ∨ ∃ k c e, cands !! k = Some c
             ∧ evaluate_candidate xs ys c.2 = Raise e
             ∧ Forall (fun c' => is_ok (evaluate_candidate xs ys c'.2) = true)
                      (take k cands).
Proof.
  induction cands as [|c cands IH].
  - left. constructor.
  - destruct (evaluate_candidate xs ys c.2) as [m|e] eqn:E.
    + destruct IH as [IH|(k & c' & e & Hk & He & Hpre)].
      * left. constructor; [rewrite E; reflexivity | exact IH].
      * right. exists (S k), c', e. split; [exact Hk|]. split; [exact He|].
        simpl. constructor; [rewrite E; reflexivity | exact Hpre].
    + right. exists 0%nat, c, e. split; [reflexivity|]. split; [exact E|].
      constructor.
Qed.

(** The loop over the strategies stops at the first candidate whose
    evaluation raises, with that exception. *)
Lemma phase1_raises (xs : list npfloat) (ys : list Z) (tf : Q)
    (cands : list (string * npfloat)) (k : nat) (c : string * npfloat) (e : exn) :
  cands !! k = Some c →
  evaluate_candidate xs ys c.2 = Raise e →
  Forall (fun c' => is_ok (evaluate_candidate xs ys c'.2) = true) (take k cands) →
  phase1 xs ys tf cands = Raise e.
Proof.
  intros Hk He Hpre.
  destruct (phase1_selects xs ys tf _ Hpre) as (ms & best & _ & Hrun & _).
  unfold phase1 in *. rewrite <- (take_drop_middle cands k c Hk).
  rewrite (for_each_app _ _ _ _ _ Hrun). simpl.
  unfold phase1_body. destruct c as [name thr]. simpl in He. rewrite He.
  reflexivity.
Qed.

(** The [strategies] dictionary of a non-empty array of train errors. *)
Lemma strategies_nonempty `{Numeric} (train_errors : list npfloat) :
  train_errors ≠ [] →
  ∃ p95 p90 p85 p80 p75,
    np_percentile train_errors 95 = Ok p95
    ∧ np_percentile train_errors 90 = Ok p90
    ∧ np_percentile train_errors 85 = Ok p85
    ∧ np_percentile train_errors 80 = Ok p80
    ∧ np_percentile train_errors 75 = Ok p75
    ∧ strategies train_errors
      = Ok [ ("mean + 3*std",
              fadd (np_mean train_errors) (fmul (fin 3) (np_std train_errors)));
             ("mean + 2*std",
              fadd (np_mean train_errors) (fmul (fin 2) (np_std train_errors)));
             ("mean + 1*std",
              fadd (np_mean train_errors) (fmul (fin 1) (np_std train_errors)));
             ("mean", np_mean train_errors);
             ("95th percentile", p95);
             ("90th percentile", p90);
             ("85th percentile", p85);
             ("80th percentile", p80);
             ("75th percentile", p75) ].
Proof.
  intros Hne. destruct train_errors as [|x l]; [congruence|].
  do 5 eexists. repeat (split; [reflexivity|]). reflexivity.
Qed.

(** The calibrator once the [strategies] dictionary is built. *)
Lemma calibrate_phases `{Numeric} (train_errors test_errors : list npfloat)
    (y_test : list Z) (target_fpr : Q) (candidates : list (string * npfloat)) :
  strategies train_errors = Ok candidates →
  calibrate train_errors test_errors y_test target_fpr =
  match phase1 test_errors y_test target_fpr candidates with
  | Ok (Some b) =>
      Ok {| opt_threshold := best_threshold b; opt_strategy := best_strategy b;
            opt_test_metrics := best_metrics b |}
  | Ok None =>
      match phase2 train_errors test_errors y_test target_fpr with
      | Ok b =>
          Ok {| opt_threshold := best_threshold b; opt_strategy := best_strategy b;
                opt_test_metrics := best_metrics b |}
      | Raise e => Raise e
      end
  | Raise e => Raise e
  end.
Proof.
  intros Hs. unfold calibrate. rewrite Hs.
  change (Ok candidates ≫= ?f) with (f candidates). cbv beta.
  destruct (phase1 test_errors y_test target_fpr candidates) as [[b|]|e];
    reflexivity.
Qed.

(** On an empty array of train errors the first percentile raises and no
    candidate is evaluated. *)
Lemma calibrate_empty `{Numeric} (test_errors : list npfloat) (y_test : list Z)
    (target_fpr : Q) :
  calibrate [] test_errors y_test target_fpr
  = Raise (IndexError "index -1 is out of bounds for axis 0 with size 0").
Proof. reflexivity. Qed.

End Calibrator.

Section CalibratorPhase1.
Import TrainModel OptimizeThreshold.

(** C1. For every non-empty array of train errors, phase 1 of the
    threshold calibrator has exactly nine candidate thresholds, in this
    order: mean+3 std, mean+2 std, mean+1 std, mean, and the 95th, 90th,
    85th, 80th and 75th percentiles of the train errors.  It evaluates
    them in that order.  If every evaluation returns metrics, phase 1
    returns, and what it selects is the first-evaluated candidate with the
    highest detection rate among those with detection_rate >= 0.85 and
    fpr <= target_fpr (nothing when no candidate qualifies); a selected
    candidate is what the calibrator returns.  Otherwise the exception of
    the first candidate whose evaluation raises leaves phase 1 and the
    calibrator.  (On an empty array of train errors [np.percentile]
    raises and no candidate is evaluated.) *)
Theorem C1_phase1_selects_first_best `{Numeric} (train_errors test_errors : list npfloat)
    (y_test : list Z) (target_fpr : Q) :
  train_errors ≠ [] →
  ∃ p95 p90 p85 p80 p75 candidates,
    np_percentile train_errors 95 = Ok p95
    ∧ np_percentile train_errors 90 = Ok p90
    ∧ np_percentile train_errors 85 = Ok p85
    ∧ np_percentile train_errors 80 = Ok p80
    ∧ np_percentile train_errors 75 = Ok p75
    ∧ candidates =
      [ ("mean + 3*std", fadd (np_mean train_errors) (fmul (fin 3) (np_std train_errors)));
        ("mean + 2*std", fadd (np_mean train_errors) (fmul (fin 2) (np_std train_errors)));
        ("mean + 1*std", fadd (np_mean train_errors) (fmul (fin 1) (np_std train_errors)));
        ("mean", np_mean train_errors);
        ("95th percentile", p95);
        ("90th percentile", p90);
        ("85th percentile", p85);
        ("80th percentile", p80);
        ("75th percentile", p75) ]
    ∧ strategies train_errors = Ok candidates
    ∧ ((∃ ms best,
          Forall2 (fun c m => evaluate_candidate test_errors y_test c.2 = Ok m)
                  candidates ms
          ∧ phase1 test_errors y_test target_fpr candidates = Ok best
          ∧ match best with
            | None => ∀ m, m ∈ ms → meets_requirements target_fpr m = false
            | Some b =>
                (∃ k, candidates !! k = Some (best_strategy b, best_threshold b)
                      ∧ first_best target_fpr ms k (best_metrics b))
                ∧ calibrate train_errors test_errors y_test target_fpr
                  = Ok {| opt_threshold := best_threshold b;
                          opt_strategy := best_strategy b;
                          opt_test_metrics := best_metrics b |}
            end)
       ∨ (∃ k c e,
            candidates !! k = Some c
            ∧ Forall (fun c' => is_ok (evaluate_candidate test_errors y_test c'.2) = true)
                     (take k candidates)
            ∧ evaluate_candidate test_errors y_test c.2 = Raise e
            ∧ phase1 test_errors y_test target_fpr candidates = Raise e
            ∧ calibrate train_errors test_errors y_test target_fpr = Raise e)).
Proof.
  intros Hne.
  destruct (strategies_nonempty train_errors Hne)
    as (p95 & p90 & p85 & p80 & p75 & H95 & H90 & H85 & H80 & H75 & Hs).
  eexists p95, p90, p85, p80, p75, _.
  do 5 (split; [eassumption|]). split; [reflexivity|]. split; [exact Hs|].
  destruct (evaluations_return_or_raise test_errors y_test
              [ ("mean + 3*std", fadd (np_mean train_errors) (fmul (fin 3) (np_std train_errors)));
                ("mean + 2*std", fadd (np_mean train_errors) (fmul (fin 2) (np_std train_errors)));
                ("mean + 1*std", fadd (np_mean train_errors) (fmul (fin 1) (np_std train_errors)));
                ("mean", np_mean train_errors);
                ("95th percentile", p95);
                ("90th percentile", p90);
                ("85th percentile", p85);
                ("80th percentile", p80);
                ("75th percentile", p75) ])
    as [Hok|(k & c & e & Hk & He & Hpre)].
  - left.
    destruct (phase1_selects test_errors y_test target_fpr _ Hok)
      as (ms & best & Hms & Hrun & Hout).
    exists ms, best. split; [exact Hms|]. split; [exact Hrun|].
    destruct best as [b|].
    + split; [exact Hout|].
      rewrite (calibrate_phases _ _ _ _ _ Hs), Hrun. reflexivity.
    + intros m Hin. apply not_true_is_false. exact (Hout m Hin).
  - right. exists k, c, e.
    pose proof (phase1_raises test_errors y_test target_fpr _ k c e Hk He Hpre)
      as Hrun.
    split; [exact Hk|]. split; [exact Hpre|]. split; [exact He|].
    split; [exact Hrun|].
    rewrite (calibrate_phases _ _ _ _ _ Hs), Hrun. reflexivity.
Qed.

End CalibratorPhase1.

Section CalibratorExamples.
Import TrainModel OptimizeThreshold.

(** A calibration run in which every candidate threshold equals 1 and
    separates the held-out split perfectly. *)
Definition demo_train_errors : list npfloat := [fin 1; fin 1].
Definition demo_test_errors : list npfloat := [fin 0; fin 2].
Definition demo_labels : list Z := [0; 1]%Z.

(** On that run every evaluation returns and phase 1 selects. *)
Lemma C1_witness :
  demo_train_errors ≠ []
  ∧ ∃ candidates ms best,
      @strategies exact_sqrt demo_train_errors = Ok candidates
      ∧ Forall2 (fun c m => evaluate_candidate demo_test_errors demo_labels c.2 = Ok m)
                candidates ms
      ∧ phase1 demo_test_errors demo_labels (1 # 10) candidates = Ok best
      ∧ match best with
        | None => ∀ m, m ∈ ms → meets_requirements (1 # 10) m = false
        | Some b =>
            (∃ k, candidates !! k = Some (best_strategy b, best_threshold b)
                  ∧ first_best (1 # 10) ms k (best_metrics b))
            ∧ @calibrate exact_sqrt demo_train_errors demo_test_errors demo_labels (1 # 10)
              = Ok {| opt_threshold := best_threshold b;
                      opt_strategy := best_strategy b;
                      opt_test_metrics := best_metrics b |}
        end.
Proof.
  assert (Hne : demo_train_errors ≠ []) by discriminate.
  split; [exact Hne|].
  destruct (@C1_phase1_selects_first_best exact_sqrt demo_train_errors
              demo_test_errors demo_labels (1 # 10) Hne)
    as (p95 & p90 & p85 & p80 & p75 & candidates
        & H95 & H90 & H85 & H80 & H75 & Hc & Hs & [Hsel|Hraise]).
  - destruct Hsel as (ms & best & Hms & Hrun & Hbest).
    exists candidates, ms, best. repeat split; assumption.
  - exfalso. destruct Hraise as (k & c & e & Hk & _ & He & _).
    injection H95 as <-. injection H90 as <-. injection H85 as <-.
    injection H80 as <-. injection H75 as <-. subst candidates.
    do 9 (destruct k as [|k];
          [injection Hk as <-; vm_compute in He; discriminate He|]).
    discriminate Hk.
Defined.

(** C1, at a failing input.  On an empty array of train errors
    [np.percentile] raises IndexError while the [strategies] dictionary is
    built: no candidate is evaluated and the calibrator returns nothing. *)
Lemma C1_counterexample :
  @strategies exact_sqrt [] =
    Raise (IndexError "index -1 is out of bounds for axis 0 with size 0")
  ∧ @calibrate exact_sqrt [] demo_test_errors demo_labels (1 # 10) =
    Raise (IndexError "index -1 is out of bounds for axis 0 with size 0").
Proof. split; reflexivity. Qed.

(** On the demo run the selected strategy is the first one. *)
Example demo_calibration :
  opt_strategy <$> @calibrate exact_sqrt demo_train_errors demo_test_errors
                              demo_labels (1 # 10)
  = Ok "mean + 3*std".
Proof. vm_compute. reflexivity. Qed.

(** A held-out split on which the network's errors are inverted: the
    anomalous window has the small error.  No threshold qualifies it. *)
Definition inverted_test_errors : list npfloat := [fin 0; fin 2].
Definition inverted_labels : list Z := [1; 0]%Z.

Lemma inverted_never_qualifies (thr : npfloat) :
  ∃ m, evaluate_candidate inverted_test_errors inverted_labels thr = Ok m
       ∧ meets_requirements (1 # 10) m = false.
Proof.
  unfold evaluate_candidate, inverted_test_errors, inverted_labels, classify.
  destruct thr as [q|]; simpl; unfold Qgtb.
  - destruct (Qle_bool 0 q) eqn:E0, (Qle_bool 2 q) eqn:E2;
      try (eexists; split; [vm_compute; reflexivity | vm_compute; reflexivity]).
    exfalso. apply Qle_bool_iff in E2.
    assert (Hq : 0 <= q) by (eapply Qle_trans; [|exact E2]; discriminate).
    apply Qle_bool_iff in Hq. congruence.
  - eexists; split; vm_compute; reflexivity.
Qed.

Lemma inverted_phase1 (cands : list (string * npfloat)) :
  phase1 inverted_test_errors inverted_labels (1 # 10) cands = Ok None.
Proof.
  unfold phase1. induction cands as [|[name thr] cands IH]; [reflexivity|].
  simpl. destruct (inverted_never_qualifies thr) as (m & -> & Hq).
  simpl. rewrite Hq. exact IH.
Qed.

Lemma inverted_phase2 :
  phase2 demo_train_errors inverted_test_errors inverted_labels (1 # 10)
  = Raise (TypeError "unsupported format string passed to NoneType.__format__").
Proof. vm_compute. reflexivity. Qed.

(** C2, at a failing input.  With train errors [1, 1], held-out errors
    [0, 2] labelled [1, 0] and target_fpr = 0.10, no phase-1 candidate
    qualifies, the fallback runs, every percentile scores
    0 - 2 * 1 = -2, which is not above the initial [best_score = -1], so
    nothing is kept and the report after the sweep raises TypeError: the
    calibrator returns no threshold. *)
Theorem C2_fallback_keeps_nothing `{Numeric} :
  calibrate demo_train_errors inverted_test_errors inverted_labels (1 # 10)
  = Raise (TypeError "unsupported format string passed to NoneType.__format__").
Proof.
  destruct (strategies_nonempty demo_train_errors)
    as (p95 & p90 & p85 & p80 & p75 & _ & _ & _ & _ & _ & Hs); [discriminate|].
  rewrite (calibrate_phases _ _ _ _ _ Hs), inverted_phase1, inverted_phase2.
  reflexivity.
Qed.

(** The score of each percentile on that run. *)
Example inverted_scores :
  Forall (fun p =>
            (balance_score (1 # 10) <$>
               (np_percentile demo_train_errors p
                ≫= evaluate_candidate inverted_test_errors inverted_labels))
            = Ok (- (2)))
         fallback_percentiles.
Proof.
  cbv [fallback_percentiles seq].
  repeat (constructor; [vm_compute; reflexivity|]). constructor.
Qed.

(** C6, at a failing input.  When a single class occurs in the true and in
    the predicted labels, the confusion matrix is 1 x 1 and the four-way
    unpacking at the top of [evaluate_model] raises ValueError. *)
Theorem C6_evaluate_raises_on_one_class (errors : list npfloat) (thr : npfloat) :
  evaluate_model [0; 0; 0]%Z [0; 0; 0]%Z errors thr
  = Raise (ValueError "not enough values to unpack (expected 4)").
Proof. reflexivity. Qed.

End CalibratorExamples.

(** ** The training preprocessor (preprocess.preprocess_pipeline) *)

Section Pipeline.
Import Preprocess.

Lemma label_guard (c : string) (df : DataFrame) :
  c ≠ "" → has_column c df = true →
  negb (String.eqb c "") && has_column c df = true.
Proof.
  intros Hc Hin. rewrite Hin, andb_true_r.
  apply negb_true_iff, String.eqb_neq, Hc.
Qed.

(** [prepare] on a table with a label column, case by case. *)
Lemma prepare_labelled `{Numeric} (df : DataFrame) (numeric_cols : list string)
    (c : string) (create_seq : bool) (L : nat) :
  c ≠ "" → has_column c df = true →
  prepare df numeric_cols (Some c) create_seq L =
  match clean_data (drop_column c df) numeric_cols with
  | Raise e => Raise e
  | Ok (df_clean, scaler, encoded_cols) =>
      if create_seq then
        let X := create_sequences (rows df_clean) L in
        Ok {| prep_X := Sequences X;
              prep_y := if (0 <? length X)%nat
                        then Some (drop L (label_vector c df))
                        else Some (label_vector c df);
              prep_scaler := scaler;
              prep_encoded_columns := encoded_cols;
              prep_feature_names := columns df_clean |}
      else
        Ok {| prep_X := Table (rows df_clean);
              prep_y := Some (label_vector c df);
              prep_scaler := scaler;
              prep_encoded_columns := encoded_cols;
              prep_feature_names := columns df_clean |}
  end.
Proof.
  intros Hc Hin. unfold prepare. rewrite (label_guard c df Hc Hin).
  destruct (clean_data (drop_column c df) numeric_cols) as [[[d s] e]|e];
    [|reflexivity].
  simpl. destruct create_seq; reflexivity.
Qed.

(** C5. When a label column is supplied and windows of length L are
    built, the windows are those of [create_sequences] over the cleaned
    rows (window i holds rows i .. i + L - 1) and the label attached to
    window i is the label of row i + L, the row that follows the window. *)
Theorem C5_label_follows_window `{Numeric} (df : DataFrame)
    (numeric_cols : list string) (c : string) (L : nat) (p : Prepared) :
  c ≠ "" → has_column c df = true →
  prepare df numeric_cols (Some c) true L = Ok p →
  (0 < n_samples (prep_X p))%nat →
  ∃ d s e y,
    clean_data (drop_column c df) numeric_cols = Ok (d, s, e)
    ∧ prep_X p = Sequences (create_sequences (rows d) L)
    ∧ prep_y p = Some y
    ∧ ∀ i, y !! i = label_vector c df !! (i + L)%nat.
Proof.
  intros Hc Hin Hp Hn. rewrite (prepare_labelled df numeric_cols c true L Hc Hin) in Hp.
  destruct (clean_data (drop_column c df) numeric_cols) as [[[d s] e]|e];
    [|discriminate].
  simpl in Hp. injection Hp as <-. simpl in Hn |- *.
  apply Nat.ltb_lt in Hn. rewrite Hn.
  exists d, s, e, (drop L (label_vector c df)).
  split; [reflexivity|]. split; [reflexivity|]. split; [reflexivity|].
  intros i. rewrite lookup_drop. f_equal. lia.
Qed.

(** A four-row table: the third row is the malicious one. *)
Definition demo_labelled : DataFrame :=
  {| columns := ["orig_pkts"; "resp_pkts"; "orig_bytes"; "resp_bytes"; "label"];
     rows := [ [Num 10; Num 8; Num 1200; Num 850; Str "benign"];
               [Num 12; Num 8; Num 1300; Num 900; Str "benign"];
               [Num 500; Num 400; Num 60000; Num 42500; Str "malicious"];
               [Num 10; Num 8; Num 1400; Num 950; Str "benign"] ] |}.

Definition demo_prepared : Prepared :=
  match @prepare exact_sqrt demo_labelled App.expected_features (Some "label") true 2 with
  | Ok p => p
  | Raise _ =>
      {| prep_X := Table []; prep_y := None; prep_scaler := None;
         prep_encoded_columns := []; prep_feature_names := [] |}
  end.

Lemma C5_witness :
  ∃ d s e y,
    @clean_data exact_sqrt (drop_column "label" demo_labelled) App.expected_features
    = Ok (d, s, e)
    ∧ prep_X demo_prepared = Sequences (create_sequences (rows d) 2)
    ∧ prep_y demo_prepared = Some y
    ∧ ∀ i, y !! i = label_vector "label" demo_labelled !! (i + 2)%nat.
Proof.
  apply (@C5_label_follows_window exact_sqrt demo_labelled App.expected_features
           "label" 2 demo_prepared).
  - discriminate.
  - reflexivity.
  - vm_compute. reflexivity.
  - vm_compute. lia.
Defined.

(** On that table the first window (rows 0 and 1) is labelled malicious:
    the label of row 2, not of the window's last row. *)
Example label_is_not_the_last_rows :
  prep_y demo_prepared = Some [Num 1; Num 0]
  ∧ label_vector "label" demo_labelled !! 1%nat = Some (Num 0)
  ∧ label_vector "label" demo_labelled !! 2%nat = Some (Num 1).
Proof. vm_compute. repeat split. Qed.

End Pipeline.

(** ** Labels (preprocess.preprocess_pipeline) *)

Section Labels.
Import Preprocess.

Lemma map_label_other (s : string) :
  s ≠ "benign" → s ≠ "malicious" → map_label (Str s) = NaN.
Proof.
  intros Hb Hm. simpl.
  apply String.eqb_neq in Hb. apply String.eqb_neq in Hm.
  rewrite Hb, Hm. reflexivity.
Qed.

(** A table whose second label is neither "benign" nor "malicious". *)
Definition demo_unknown_label : DataFrame :=
  {| columns := ["orig_pkts"; "resp_pkts"; "orig_bytes"; "resp_bytes"; "label"];
     rows := [ [Num 10; Num 8; Num 1200; Num 850; Str "benign"];
               [Num 12; Num 9; Num 1300; Num 900; Str "suspicious"] ] |}.

(** C8, as stated, fails: on a label column holding the string
    "suspicious" the preprocessor does not fail; it returns, and the label
    has become a missing value. *)
Lemma C8_counterexample :
  dtype_object (column "label" demo_unknown_label) = true
  ∧ Str "suspicious" ∈ column "label" demo_unknown_label
  ∧ ∃ p, @prepare exact_sqrt demo_unknown_label App.expected_features
                  (Some "label") false 10 = Ok p
         ∧ prep_y p = Some [Num 0; NaN].
Proof.
  split; [reflexivity|]. split.
  - vm_compute. apply list_elem_of_further, list_elem_of_here.
  - eexists. split; [vm_compute; reflexivity | reflexivity].
Qed.

(** C8, amended. For a label column that holds text, the preprocessor maps
    "benign" to 0 and "malicious" to 1, and every other string to a
    missing value; it does not fail on account of a label: it returns
    exactly when cleaning the feature columns returns, and the label
    vector it carries is the mapped column. *)
Theorem C8_unknown_label_becomes_missing `{Numeric} (df : DataFrame)
    (numeric_cols : list string) (c : string) (create_seq : bool) (L : nat) :
  c ≠ "" → has_column c df = true → dtype_object (column c df) = true →
  map_label (Str "benign") = Num 0
  ∧ map_label (Str "malicious") = Num 1
  ∧ (∀ s, s ≠ "benign" → s ≠ "malicious" → map_label (Str s) = NaN)
  ∧ label_vector c df = map map_label (column c df)
  ∧ is_ok (prepare df numeric_cols (Some c) create_seq L)
    = is_ok (clean_data (drop_column c df) numeric_cols)
  ∧ (∀ p, prepare df numeric_cols (Some c) false L = Ok p →
          prep_y p = Some (map map_label (column c df))).
Proof.
  intros Hc Hin Hobj.
  assert (Hy : label_vector c df = map map_label (column c df)).
  { unfold label_vector. rewrite Hobj. reflexivity. }
  split; [reflexivity|]. split; [reflexivity|].
  split; [exact map_label_other|]. split; [exact Hy|]. split.
  - rewrite (prepare_labelled df numeric_cols c create_seq L Hc Hin).
    destruct (clean_data (drop_column c df) numeric_cols) as [[[d s] e]|e];
      [|reflexivity].
    destruct create_seq; reflexivity.
  - intros p Hp. rewrite (prepare_labelled df numeric_cols c false L Hc Hin) in Hp.
    destruct (clean_data (drop_column c df) numeric_cols) as [[[d s] e]|e];
      [|discriminate].
    injection Hp as <-. simpl. rewrite Hy. reflexivity.
Qed.

Lemma C8_witness :
  map_label (Str "benign") = Num 0
  ∧ map_label (Str "malicious") = Num 1
  ∧ (∀ s, s ≠ "benign" → s ≠ "malicious" → map_label (Str s) = NaN)
  ∧ label_vector "label" demo_unknown_label
    = map map_label (column "label" demo_unknown_label)
  ∧ is_ok (@prepare exact_sqrt demo_unknown_label App.expected_features
                    (Some "label") true 10)
    = is_ok (@clean_data exact_sqrt (drop_column "label" demo_unknown_label)
                         App.expected_features)
  ∧ (∀ p, @prepare exact_sqrt demo_unknown_label App.expected_features
                   (Some "label") false 10 = Ok p →
          prep_y p = Some (map map_label (column "label" demo_unknown_label))).
Proof.
  apply (@C8_unknown_label_becomes_missing exact_sqrt demo_unknown_label
           App.expected_features "label" true 10).
  - discriminate.
  - reflexivity.
  - reflexivity.
Defined.

End Labels.

(** ** Missing feature columns *)

Section MissingColumns.
Import Preprocess.

Lemma has_column_false (c : string) (df : DataFrame) :
  has_column c df = false ↔ c ∉ columns df.
Proof. unfold has_column. apply bool_decide_eq_false. Qed.

Lemma has_column_true (c : string) (df : DataFrame) :
  has_column c df = true ↔ c ∈ columns df.
Proof. unfold has_column. apply bool_decide_eq_true. Qed.

Lemma col_index_lookup (c : string) (cols : list string) (i : nat) :
  col_index c cols = Some i → cols !! i = Some c.
Proof.
  revert i. induction cols as [|c' cols IH]; intros i; simpl; [discriminate|].
  destruct (String.eqb_spec c c') as [->|Hne].
  - intros [= <-]. reflexivity.
  - destruct (col_index c cols) as [j|]; simpl; [|discriminate].
    intros [= <-]. simpl. apply IH. reflexivity.
Qed.

(** Dropping a column leaves the presence of every other column as it was. *)
Lemma has_column_drop_other (f c : string) (df : DataFrame) :
  f ≠ c → has_column f (drop_column c df) = has_column f df.
Proof.
  intros Hne. unfold drop_column.
  destruct (col_index c (columns df)) as [i|] eqn:Hi; [|reflexivity].
  unfold has_column. simpl. apply bool_decide_ext.
  apply col_index_lookup in Hi.
  rewrite delete_take_drop.
  rewrite <- (take_drop_middle (columns df) i c Hi) at 3.
  rewrite !elem_of_app, elem_of_cons. intuition congruence.
Qed.

Lemma filter_ext_elem {A : Type} (P Q : A → Prop)
    `{∀ x, Decision (P x)} `{∀ x, Decision (Q x)} (l : list A) :
  (∀ x, x ∈ l → P x ↔ Q x) → filter P l = filter Q l.
Proof.
  induction l as [|x l IH]; intros Hext; [reflexivity|].
  rewrite !filter_cons.
  assert (Hx : P x ↔ Q x) by (apply Hext; left).
  rewrite IH by (intros y Hy; apply Hext; right; exact Hy).
  destruct (decide (P x)), (decide (Q x)); tauto.
Qed.

(** The required columns an uploaded table lacks, in the order the
    application lists them. *)
Definition missing_required (df : DataFrame) : list string :=
  filter (fun f => has_column f df = false) App.expected_features.

Lemma elem_of_missing_required (df : DataFrame) (f : string) :
  f ∈ missing_required df ↔ f ∈ App.expected_features ∧ f ∉ columns df.
Proof.
  unfold missing_required. rewrite list_elem_of_filter, has_column_false. tauto.
Qed.

Lemma required_is_not_dropped (f : string) :
  f ∈ App.expected_features → f ≠ "ts" ∧ f ≠ "label".
Proof.
  unfold App.expected_features. rewrite !elem_of_cons, elem_of_nil.
  intros [->|[->|[->|[->|[]]]]]; split; discriminate.
Qed.

Lemma required_frame_missing (df : DataFrame) :
  missing_required df ≠ [] →
  App.required_frame df =
  Raise (ValueError ("Missing required features: "
                     +:+ App.py_list_repr (missing_required df))).
Proof.
  intros Hne. unfold App.required_frame.
  set (df1 := if has_column "ts" df then drop_column "ts" df else df).
  set (df2 := if has_column "label" df1 then drop_column "label" df1 else df1).
  assert (Heq : filter (fun f => has_column f df2 = false) App.expected_features
                = missing_required df).
  { apply filter_ext_elem. intros f Hf.
    destruct (required_is_not_dropped f Hf) as [Hts Hlabel].
    assert (H1 : has_column f df1 = has_column f df).
    { unfold df1. destruct (has_column "ts" df);
        [apply has_column_drop_other, Hts | reflexivity]. }
    assert (H2 : has_column f df2 = has_column f df1).
    { unfold df2. destruct (has_column "label" df1);
        [apply has_column_drop_other, Hlabel | reflexivity]. }
    rewrite H2, H1. reflexivity. }
  rewrite Heq. destruct (missing_required df); [contradiction | reflexivity].
Qed.

(** [clean_data] looks only at the requested columns that are present. *)
Lemma clean_data_ignores_absent `{Numeric} (df : DataFrame) (cols : list string) :
  clean_data df cols
  = clean_data df (filter (fun c => has_column c (dropna df) = true) cols).
Proof.
  unfold clean_data. rewrite list_filter_filter_l by tauto. reflexivity.
Qed.

(** A table without the [resp_bytes] column. *)
Definition demo_no_resp_bytes : DataFrame :=
  {| columns := ["orig_pkts"; "resp_pkts"; "orig_bytes"];
     rows := [ [Num 10; Num 8; Num 1200];
               [Num 12; Num 10; Num 1400] ] |}.

(** C7, as stated, fails: given a table without [resp_bytes] and the four
    required columns to normalize, [clean_data] does not fail; it
    normalizes the three columns that are present. *)
Lemma C7_counterexample :
  "resp_bytes" ∈ missing_required demo_no_resp_bytes
  ∧ ∃ d s, @clean_data exact_sqrt demo_no_resp_bytes App.expected_features
           = Ok (d, Some s, [])
           ∧ length (mean_ s) = 3%nat
           ∧ columns d = ["orig_pkts"; "resp_pkts"; "orig_bytes"].
Proof.
  split.
  - vm_compute. apply list_elem_of_here.
  - eexists _, _. split; [vm_compute; reflexivity|]. split; reflexivity.
Qed.

(** C7, amended. The inference preprocessor, [preprocess_for_detection],
    fails on a table that lacks required columns, with a ValueError whose
    message lists the absent required columns and only those, in the order
    orig_pkts, resp_pkts, orig_bytes, resp_bytes.  The training
    preprocessor, [clean_data], raises no such error: the requested
    columns that are absent are ignored, and it proceeds exactly as if
    only the present ones had been requested. *)
Theorem C7_missing_columns `{Numeric} `{Runtime} (df : DataFrame) :
  (∀ path, read_csv path = Ok df → missing_required df ≠ [] →
     App.preprocess_for_detection path
     = Raise (ValueError ("Missing required features: "
                          +:+ App.py_list_repr (missing_required df))))
  ∧ (∀ f, f ∈ missing_required df ↔ f ∈ App.expected_features ∧ f ∉ columns df)
  ∧ (∀ cols, clean_data df cols
             = clean_data df (filter (fun c => has_column c (dropna df) = true) cols)).
Proof.
  split; [|split].
  - intros path Hread Hmiss. unfold App.preprocess_for_detection.
    rewrite Hread. simpl. rewrite (required_frame_missing df Hmiss). reflexivity.
  - apply elem_of_missing_required.
  - apply clean_data_ignores_absent.
Qed.

End MissingColumns.

(** ** A runtime for closed examples *)

Section DemoRuntime.

(** Twelve flat rows, the sixth spiked; with [ts] and [label] columns. *)
Definition demo_upload : DataFrame :=
  {| columns := ["ts"; "orig_pkts"; "resp_pkts"; "orig_bytes"; "resp_bytes"; "label"];
     rows := map (fun i =>
               if (i =? 5)%nat
               then [Num (inject_Z (Z.of_nat i)); Num 130; Num 104; Num 13000; Num 10400;
                     Str "malicious"]
               else [Num (inject_Z (Z.of_nat i)); Num 10; Num 8; Num 1000; Num 800;
                     Str "benign"]) (seq 0 12) |}.

(** The same traffic, five rows only. *)
Definition demo_small : DataFrame :=
  {| columns := columns demo_upload; rows := take 5 (rows demo_upload) |}.

(** A process with a trained network (it reconstructs every window as
    zeros), a threshold file holding 0.12, three uploads, and no mail
    account configured. *)
Definition demo_runtime : Runtime :=
  {| Model := unit;
     model_predict := fun _ X => Ok (map (map (map (fun _ => fin 0))) X);
     read_csv := fun path =>
       if String.eqb path "upload.csv" then Ok demo_upload
       else if String.eqb path "small.csv" then Ok demo_small
       else if String.eqb path "missing.csv" then Ok demo_no_resp_bytes
       else Raise (OtherError "No such file or directory");
     path_exists := fun path =>
       String.eqb path "models/lstm_model.keras"
       || String.eqb path "models/threshold.txt";
     load_model := fun _ => Ok tt;
     read_float := fun _ => Ok (fin (12 # 100));
     split_indices := fun n => Ok (seq 0 n, []);
     py_str := fun _ => EmptyString;
     mail_configured := false;
     mail_send := fun _ _ _ => Ok tt |}.

End DemoRuntime.

(** The scenario of an upload without [resp_bytes]: the error names that
    column and no other. *)
Example missing_resp_bytes_is_named :
  @App.preprocess_for_detection exact_sqrt demo_runtime "missing.csv"
  = Raise (ValueError "Missing required features: ['resp_bytes']").
Proof. vm_compute. reflexivity. Qed.

(** ** The normalization scaler *)

Section Scaler.
Import Preprocess.

Lemma fit_transform_inv `{Numeric} (frame : DataFrame) (s : StandardScaler)
    (normalized : list (list npfloat)) :
  fit_transform frame = Ok (s, normalized) →
  ∃ raw, to_float_matrix (rows frame) = Ok raw
         ∧ scaler_fit raw (length (columns frame)) = Ok s
         ∧ normalized = scaler_transform s raw.
Proof.
  unfold fit_transform. intros Hft.
  destruct (to_float_matrix (rows frame)) as [raw|e]; [|discriminate].
  simpl in Hft.
  destruct (scaler_fit raw (length (columns frame))) as [s'|e] eqn:Hfit;
    [|discriminate].
  simpl in Hft. injection Hft as -> <-.
  exists raw. split; [reflexivity|]. split; [exact Hfit | reflexivity].
Qed.

Lemma scaler_fit_inv `{Numeric} (raw : list (list npfloat)) (n : nat)
    (s : StandardScaler) :
  scaler_fit raw n = Ok s →
  raw ≠ []
  ∧ mean_ s = map (fun j => nan_reduce Qmean (feature j raw)) (seq 0 n)
  ∧ var_ s = map (fun j => nan_reduce Qvar (feature j raw)) (seq 0 n)
  ∧ scale_ s = map scale_of (var_ s).
Proof.
  destruct raw as [|r raw]; [discriminate|].
  intros [= <-]. repeat split. discriminate.
Qed.




End Scaler.

(** ** The detection entry point (app.detect_anomalies) *)

Section Detection.
Import App.

(** The error dictionary holds four keys and nothing else. *)
Lemma error_result_lookup (msg : string) :
  error_result msg !! "error" = Some (VStr msg)
  ∧ error_result msg !! "anomalies_count" = Some (VInt 0)
  ∧ error_result msg !! "details" = Some (VDetails [])
  ∧ error_result msg !! "total_samples" = Some (VInt 0)
  ∧ dom (error_result msg)
    = ({["error"; "anomalies_count"; "details"; "total_samples"]} : gset string).
Proof.
  unfold error_result.
  split; [by simplify_map_eq|]. split; [by simplify_map_eq|].
  split; [by simplify_map_eq|]. split; [by simplify_map_eq|].
  rewrite !dom_insert_L, dom_empty_L. set_solver.
Qed.

Context `{Numeric} `{Runtime}.

(** How a call of [detect_anomalies] ends, by what its three steps (loading
    the model, preprocessing the upload, running the network) did: the
    four ways it can fail, each with the error dictionary, and the
    completed detection, which counts the windows and the flagged ones. *)
Inductive detection_case (path : string) (g : Globals)
    : gmap string pyval * Globals → Prop :=
| load_failed (e : exn) (g' : Globals) :
    load_ml_model g = (Raise e, g') →
    detection_case path g (error_result (exn_str e), g')
| model_unavailable (thr : npfloat) (g' : Globals) :
    load_ml_model g = (Ok (None, thr), g') →
    detection_case path g
      (error_result "Model not loaded. Please train the model first.", g')
| preprocessing_failed (model : Model) (thr : npfloat) (g' : Globals) (e : exn) :
    load_ml_model g = (Ok (Some model, thr), g') →
    preprocess_for_detection path = Raise e →
    detection_case path g (error_result (exn_str e), g')
| compute_failed (model : Model) (thr : npfloat) (g' : Globals)
    (sequences : list window) (original_df : DataFrame)
    (features : list string) (e : exn) :
    load_ml_model g = (Ok (Some model, thr), g') →
    preprocess_for_detection path = Ok (sequences, original_df, features) →
    model_predict model sequences = Raise e →
    detection_case path g (error_result (exn_str e), g')
| detected (model : Model) (thr : npfloat) (g' : Globals)
    (sequences : list window) (original_df : DataFrame)
    (features : list string) (reconstructed : list window)
    (result : gmap string pyval) :
    load_ml_model g = (Ok (Some model, thr), g') →
    preprocess_for_detection path = Ok (sequences, original_df, features) →
    model_predict model sequences = Ok reconstructed →
    result !! "error" = None →
    result !! "anomalies_count"
    = Some (VInt (Z.of_nat (length
         (anomalies (zip_with TrainModel.window_mse sequences reconstructed) thr)))) →
    result !! "total_samples" = Some (VInt (Z.of_nat (length sequences))) →
    (0 < length sequences)%nat →
    detection_case path g (result, g').

Lemma request_windows_nonempty (m : list (list npfloat)) (sequences : list window) :
  request_windows m = Ok sequences → (0 < length sequences)%nat.
Proof.
  unfold request_windows. destruct (Nat.leb_spec (length m) 10); [discriminate|].
  intros [= <-]. rewrite length_map, length_seq. lia.
Qed.

Lemma preprocess_nonempty (path : string) (sequences : list window)
    (original_df : DataFrame) (features : list string) :
  preprocess_for_detection path = Ok (sequences, original_df, features) →
  (0 < length sequences)%nat.
Proof.
  unfold preprocess_for_detection. intros Hpre.
  destruct (read_csv path) as [df|e]; [|discriminate]. simpl in Hpre.
  destruct (required_frame df) as [frame|e]; [|discriminate]. simpl in Hpre.
  destruct (fit_transform frame) as [[s normalized]|e]; [|discriminate].
  simpl in Hpre.
  destruct (request_windows normalized) as [seqs|e] eqn:Hwin; [|discriminate].
  simpl in Hpre. injection Hpre as <- _ _.
  eapply request_windows_nonempty, Hwin.
Qed.

(** C10. [detect_anomalies] is total: for every uploaded file and every
    state of the globals it returns a dictionary (it is a function into
    dictionaries: no exception leaves it).  When the model or threshold
    cannot be loaded, the model is unavailable, preprocessing raises or
    the network raises, the dictionary is the error dictionary: an
    ['error'] message with anomalies_count 0, an empty details list and
    total_samples 0, and no other key.  Only when the model is loaded,
    preprocessing returns and the network returns is it the completed
    detection result: without an ['error'] key, with the number of flagged
    windows as anomalies_count and the number of windows, which is not 0,
    as total_samples, whatever became of the e-mail alert. *)
Theorem C10_detect_anomalies_total (path : string) (g : Globals) :
  detection_case path g (detect_anomalies path g)
  ∧ ∀ msg,
      error_result msg !! "error" = Some (VStr msg)
      ∧ error_result msg !! "anomalies_count" = Some (VInt 0)
      ∧ error_result msg !! "details" = Some (VDetails [])
      ∧ error_result msg !! "total_samples" = Some (VInt 0)
      ∧ dom (error_result msg)
        = ({["error"; "anomalies_count"; "details"; "total_samples"]} : gset string).
Proof.
  split; [|apply error_result_lookup].
  unfold detect_anomalies, detect_try.
  destruct (load_ml_model g) as [[[[model|] thr]|e] g'] eqn:Hload.
  - destruct (preprocess_for_detection path) as [[[sequences original_df] features]|e]
      eqn:Hpre.
    + destruct (model_predict model sequences) as [reconstructed|e] eqn:Hpredict.
      * unfold detect_with. rewrite Hpre. simpl. rewrite Hpredict. simpl.
        eapply detected; [exact Hload | exact Hpre | exact Hpredict | | | |].
        -- by simplify_map_eq.
        -- by simplify_map_eq.
        -- by simplify_map_eq.
        -- exact (preprocess_nonempty _ _ _ _ Hpre).
      * unfold detect_with. rewrite Hpre. simpl. rewrite Hpredict. simpl.
        eapply compute_failed; eassumption.
    + unfold detect_with. rewrite Hpre. simpl.
      eapply preprocessing_failed; eassumption.
  - eapply model_unavailable; eassumption.
  - eapply load_failed; eassumption.
Qed.

End Detection.

(** Three uploads against the demo process: a detection that completes, an
    upload that is too short, and a file that cannot be read. *)
Example demo_detection :
  let g := {| App.MODEL := None; App.THRESHOLD := None |} in
  (@App.detect_anomalies exact_sqrt demo_runtime "upload.csv" g).1 !! "anomalies_count"
  = Some (App.VInt 2)
  ∧ (@App.detect_anomalies exact_sqrt demo_runtime "upload.csv" g).1 !! "error" = None
  ∧ (@App.detect_anomalies exact_sqrt demo_runtime "small.csv" g).1
    = App.error_result "File must have more than 10 rows for sequence analysis"
  ∧ (@App.detect_anomalies exact_sqrt demo_runtime "nothing.csv" g).1
    = App.error_result "No such file or directory".
Proof. vm_compute. repeat split. Qed.

(** ** When [evaluate_model] returns *)

Section Evaluation.
Import TrainModel OptimizeThreshold.

Definition binary (z : Z) : Prop := z = 0%Z ∨ z = 1%Z.

Definition occurs (c : Z) (l : list Z) : bool := existsb (Z.eqb c) l.

(** The class list of binary labels: 0 if it occurs, then 1 if it occurs. *)
Lemma unique_labels_binary (l : list Z) :
  Forall binary l →
  foldr insert_label [] l
  = (if occurs 0 l then [0%Z] else []) ++ (if occurs 1 l then [1%Z] else []).
Proof.
  induction 1 as [|x l [->| ->] _ IH]; [reflexivity| |];
    simpl; rewrite IH;
    destruct (occurs 0 l), (occurs 1 l); reflexivity.
Qed.

Lemma classify_binary (errors : list npfloat) (thr : npfloat) :
  Forall binary (classify errors thr).
Proof.
  unfold classify. apply Forall_map, Forall_forall. intros e _.
  destruct (fgt e thr); [right | left]; reflexivity.
Qed.

Lemma length_classify (errors : list npfloat) (thr : npfloat) :
  length (classify errors thr) = length errors.
Proof. apply length_map. Qed.

(** With both classes among the true labels the confusion matrix is 2 x 2
    and [evaluate_model] returns; its counts are the four pair counts and
    its accuracy is (tp + tn) / (tp + tn + fp + fn). *)
Lemma evaluate_model_two_classes (y_true y_pred : list Z)
    (errors : list npfloat) (thr : npfloat) :
  length y_true = length y_pred →
  Forall binary y_true → Forall binary y_pred →
  occurs 0 y_true = true → occurs 1 y_true = true →
  ∃ m, evaluate_model y_true y_pred errors thr = Ok m
       ∧ true_negatives m = count_pairs y_true y_pred 0 0
       ∧ false_positives m = count_pairs y_true y_pred 0 1
       ∧ false_negatives m = count_pairs y_true y_pred 1 0
       ∧ true_positives m = count_pairs y_true y_pred 1 1
       ∧ accuracy m
         = div_counts (true_positives m + true_negatives m)
             (true_positives m + true_negatives m
              + false_positives m + false_negatives m)
       ∧ detection_rate m = recall m.
Proof.
  intros Hlen Ht Hp H0 H1. unfold evaluate_model, confusion_matrix.
  rewrite Hlen, Nat.eqb_refl. simpl.
  unfold unique_labels.
  rewrite unique_labels_binary by (apply Forall_app; split; assumption).
  unfold occurs in *. rewrite !existsb_app, H0, H1. simpl.
  eexists. split; [reflexivity|]. simpl. repeat split.
Qed.

Lemma evaluate_candidate_two_classes (test_errors : list npfloat)
    (y_test : list Z) (thr : npfloat) :
  length y_test = length test_errors →
  Forall binary y_test →
  occurs 0 y_test = true → occurs 1 y_test = true →
  is_ok (evaluate_candidate test_errors y_test thr) = true.
Proof.
  intros Hlen Hb H0 H1. unfold evaluate_candidate.
  destruct (evaluate_model_two_classes y_test (classify test_errors thr)
              test_errors thr) as (m & -> & _); try assumption.
  - rewrite length_classify. exact Hlen.
  - apply classify_binary.
  - reflexivity.
Qed.

(** On a held-out split that holds both classes, phase 1 returns for every
    candidate list. *)
Lemma phase1_returns_on_two_classes (test_errors : list npfloat)
    (y_test : list Z) (target_fpr : Q) (cands : list (string * npfloat)) :
  length y_test = length test_errors →
  Forall binary y_test →
  occurs 0 y_test = true → occurs 1 y_test = true →
  ∃ ms best,
    Forall2 (fun c m => evaluate_candidate test_errors y_test c.2 = Ok m) cands ms
    ∧ phase1 test_errors y_test target_fpr cands = Ok best
    ∧ phase1_outcome target_fpr cands ms best.
Proof.
  intros Hlen Hb H0 H1. apply phase1_selects, Forall_forall.
  intros c _. apply evaluate_candidate_two_classes; assumption.
Qed.

(** The rates of [evaluate_model] that are guarded are 0 when their
    denominator is 0. *)
Lemma evaluate_model_guards (y_true y_pred : list Z) (errors : list npfloat)
    (thr : npfloat) (m : Metrics) :
  evaluate_model y_true y_pred errors thr = Ok m →
  ((true_positives m + false_positives m = 0)%Z → precision m = 0)
  ∧ ((true_positives m + false_negatives m = 0)%Z → recall m = 0)
  ∧ ((false_positives m + true_negatives m = 0)%Z → false_positive_rate m = 0).
Proof.
  unfold evaluate_model. destruct (confusion_matrix y_true y_pred) as [cm|e];
    [|discriminate].
  simpl. destruct (ravel cm) as [|tn [|fp [|fn [|tp [|x l]]]]]; try discriminate.
  intros [= <-]. simpl. repeat split; intros ->; reflexivity.
Qed.

End Evaluation.

(** ** The threshold calibrator, phase 2 *)

Section CalibratorPhase2.
Import TrainModel OptimizeThreshold.








End CalibratorPhase2.

(** * Further properties of the code *)

(** ** What the calibrator returns (optimize_threshold.find_optimal_threshold) *)

Section CalibratorResult.
Import TrainModel OptimizeThreshold.







End CalibratorResult.

Section CalibratorResultExamples.
Import TrainModel OptimizeThreshold.

Definition demo_X_test : list window := [[[fin 0]]; [[fin 2]]].





End CalibratorResultExamples.

(** ** Reconstruction errors (train_model.calculate_reconstruction_errors) *)

Section ReconstructionErrors.
Import TrainModel.

Definition nonnegative (x : npfloat) : Prop := ∀ q, x = Some q → 0 <= q.

Lemma Qsum_nonneg (qs : list Q) : Forall (fun q => 0 <= q) qs → 0 <= Qsum qs.
Proof.
  induction 1 as [|q qs Hq _ IH]; simpl; [apply Qle_refl|].
  rewrite <- (Qplus_0_r 0). apply Qplus_le_compat; assumption.
Qed.

Lemma Qmean_nonneg (qs : list Q) : Forall (fun q => 0 <= q) qs → 0 <= Qmean qs.
Proof.
  intros Hqs. unfold Qmean, Qdiv. apply Qmult_le_0_compat.
  - apply Qsum_nonneg, Hqs.
  - apply Qinv_le_0_compat. unfold Qle. simpl. lia.
Qed.

Lemma all_finite_Forall (P : Q → Prop) (xs : list npfloat) (qs : list Q) :
  Forall (fun x => ∀ q, x = Some q → P q) xs →
  all_finite xs = Some qs → Forall P qs.
Proof.
  unfold all_finite. intros HP Hqs. apply mapM_Some in Hqs.
  induction Hqs as [|x q xs qs Hx _ IH]; [constructor|].
  apply Forall_cons in HP as [Hx' HP]. constructor; [apply Hx', Hx | apply IH, HP].
Qed.

Lemma square_nonnegative (a b : npfloat) :
  nonnegative (fmul (fsub a b) (fsub a b)).
Proof.
  intros q. destruct a as [a|], b as [b|]; simpl; try discriminate.
  intros [= <-]. destruct (Qlt_le_dec (a - b) 0) as [Hneg|Hpos].
  - assert (Heq : (a - b) * (a - b) == (- (a - b)) * (- (a - b))) by ring.
    rewrite Heq. apply Qmult_le_0_compat; lra.
  - apply Qmult_le_0_compat; exact Hpos.
Qed.

(** The error of a window is a mean of squares: never negative. *)
Lemma window_mse_nonnegative (w w' : window) : nonnegative (window_mse w w').
Proof.
  intros q. unfold window_mse, np_mean, reduce.
  destruct (all_finite _) as [[|q0 qs]|] eqn:Hfin; try discriminate.
  intros [= <-]. apply Qmean_nonneg.
  eapply all_finite_Forall; [|exact Hfin].
  apply Forall_concat, Forall_forall. intros r Hr.
  apply elem_of_lookup_zip_with in Hr as (i & row & row' & -> & _ & _).
  apply Forall_forall. intros x Hx.
  apply elem_of_lookup_zip_with in Hx as (j & a & b & -> & _ & _).
  apply square_nonnegative.
Qed.

(** X3. Reconstruction errors are never negative: every error
    [calculate_reconstruction_errors] returns is nan or a number >= 0, and
    there are no more errors than windows. *)
Theorem reconstruction_errors_nonnegative `{Runtime} (model : Model)
    (X : list window) (errors : list npfloat) :
  calculate_reconstruction_errors model X = Ok errors →
  Forall nonnegative errors ∧ (length errors ≤ length X)%nat.
Proof.
  unfold calculate_reconstruction_errors. intros Hrun.
  destruct (model_predict model X) as [X'|e]; [|discriminate].
  injection Hrun as <-. split.
  - apply Forall_forall. intros e He.
    apply elem_of_lookup_zip_with in He as (i & w & w' & -> & _ & _).
    apply window_mse_nonnegative.
  - rewrite length_zip_with. lia.
Qed.

Lemma reconstruction_errors_nonnegative_witness :
  ∃ errors,
    Forall nonnegative errors ∧ (length errors ≤ length demo_X_test)%nat.
Proof.
  eexists.
  apply (@reconstruction_errors_nonnegative demo_runtime tt demo_X_test).
  vm_compute. reflexivity.
Defined.

End ReconstructionErrors.

(** ** The metrics [evaluate_model] returns (train_model.evaluate_model) *)

Section MetricsInvariants.
Import TrainModel.

Lemma elem_of_insert_label (x y : Z) (l : list Z) :
  y ∈ insert_label x l ↔ y = x ∨ y ∈ l.
Proof.
  induction l as [|z l IH]; simpl.
  - rewrite list_elem_of_singleton, elem_of_nil. tauto.
  - destruct (Z.ltb_spec x z); [rewrite !elem_of_cons; tauto|].
    destruct (Z.eqb_spec x z) as [->|Hne].
    + rewrite !elem_of_cons. tauto.
    + rewrite !elem_of_cons, IH. tauto.
Qed.

(** The class list holds exactly the values that occur. *)
Lemma elem_of_unique_labels (y : Z) (y_true y_pred : list Z) :
  y ∈ unique_labels y_true y_pred ↔ y ∈ y_true ∨ y ∈ y_pred.
Proof.
  unfold unique_labels. rewrite <- elem_of_app.
  induction (y_true ++ y_pred) as [|x l IH]; simpl; [reflexivity|].
  rewrite elem_of_insert_label, IH, elem_of_cons. tauto.
Qed.

Lemma HdRel_insert_label (y x : Z) (l : list Z) :
  HdRel Z.lt y l → (y < x)%Z → HdRel Z.lt y (insert_label x l).
Proof.
  intros Hhd Hlt. destruct l as [|z l]; simpl; [constructor; exact Hlt|].
  apply HdRel_inv in Hhd.
  destruct (x <? z)%Z; [constructor; exact Hlt|].
  destruct (x =? z)%Z; constructor; exact Hhd.
Qed.

Lemma insert_label_sorted (x : Z) (l : list Z) :
  Sorted Z.lt l → Sorted Z.lt (insert_label x l).
Proof.
  induction 1 as [|z l Hl IH Hhd]; simpl; [repeat constructor|].
  destruct (Z.ltb_spec x z).
  - constructor; [constructor; assumption | constructor; assumption].
  - destruct (Z.eqb_spec x z) as [->|Hne]; [constructor; assumption|].
    constructor; [exact IH|]. apply HdRel_insert_label; [exact Hhd | lia].
Qed.

(** The class list is strictly increasing. *)
Lemma unique_labels_sorted (y_true y_pred : list Z) :
  Sorted Z.lt (unique_labels y_true y_pred).
Proof.
  unfold unique_labels. induction (y_true ++ y_pred) as [|x l IH]; simpl.
  - constructor.
  - apply insert_label_sorted, IH.
Qed.

Lemma length_ravel_square {A : Type} (g : A → A → Z) (l1 l2 : list A) :
  length (ravel (map (fun a => map (g a) l2) l1)) = (length l1 * length l2)%nat.
Proof.
  unfold ravel. induction l1 as [|a l1 IH]; simpl; [reflexivity|].
  rewrite length_app, length_map, IH. reflexivity.
Qed.

(** With two classes [a] and [b], every pair of labels falls in exactly one
    cell of the matrix. *)
Lemma count_pairs_partition (a b : Z) (y_true y_pred : list Z) :
  a ≠ b →
  Forall (fun t => t = a ∨ t = b) y_true →
  Forall (fun p => p = a ∨ p = b) y_pred →
  length y_true = length y_pred →
  (count_pairs y_true y_pred a a + count_pairs y_true y_pred a b
   + count_pairs y_true y_pred b a + count_pairs y_true y_pred b b
   = Z.of_nat (length y_true))%Z.
Proof.
  intros Hab Ht. revert y_pred. unfold count_pairs.
  induction Ht as [|t y_true Hthis _ IH]; intros y_pred Hp Hlen.
  - reflexivity.
  - destruct y_pred as [|p y_pred]; [discriminate|].
    apply Forall_cons in Hp as [Hp Hps]. injection Hlen as Hlen.
    specialize (IH y_pred Hps Hlen). simpl zip. rewrite !filter_cons. simpl.
    destruct Hthis as [-> | ->], Hp as [-> | ->];
      repeat case_decide; simpl length; try lia; exfalso; naive_solver.
Qed.

Lemma count_pairs_nonneg (y_true y_pred : list Z) (a b : Z) :
  (0 ≤ count_pairs y_true y_pred a b)%Z.
Proof. unfold count_pairs. lia. Qed.

Definition unit_interval (q : Q) : Prop := 0 <= q ∧ q <= 1.

Lemma div_counts_unit (x y : Z) :
  (0 ≤ x ≤ y)%Z → unit_interval (div_counts x y).
Proof.
  intros [Hx Hy]. unfold unit_interval, div_counts, Qdiv, Qle.
  destruct y as [|y|y]; simpl; [| |lia].
  - assert (x = 0%Z) by lia. subst. simpl. lia.
  - unfold Qinv. simpl. nia.
Qed.

Lemma zero_unit : unit_interval 0.
Proof. split; discriminate. Qed.

Lemma f1_unit (p r : Q) :
  unit_interval p → unit_interval r →
  unit_interval (if Qgtb (p + r) 0 then 2 * (p * r) / (p + r) else 0).
Proof.
  intros [Hp0 Hp1] [Hr0 Hr1]. destruct (Qgtb (p + r) 0) eqn:Hgt; [|apply zero_unit].
  apply Qgtb_lt in Hgt.
  assert (Hpr : 0 <= p * r) by (apply Qmult_le_0_compat; assumption).
  assert (Hp : p * r <= p).
  { apply Qle_trans with (1 * p); [|rewrite Qmult_1_l; apply Qle_refl].
    rewrite (Qmult_comm p r). apply Qmult_le_compat_r; assumption. }
  assert (Hr : p * r <= r).
  { apply Qle_trans with (1 * r); [|rewrite Qmult_1_l; apply Qle_refl].
    apply Qmult_le_compat_r; assumption. }
  split.
  - apply Qle_shift_div_l; [exact Hgt|]. lra.
  - apply Qle_shift_div_r; [exact Hgt|]. lra.
Qed.

End MetricsInvariants.

Section MetricsWellFormed.
Import TrainModel.

Lemma guarded_rate_unit (x y : Z) :
  (0 ≤ x)%Z → (0 ≤ y)%Z →
  unit_interval (if (0 <? x + y)%Z then div_counts x (x + y) else 0).
Proof.
  intros Hx Hy. destruct (0 <? x + y)%Z;
    [apply div_counts_unit; lia | apply zero_unit].
Qed.

(** What [evaluate_model] computed, when it returns. *)
Lemma evaluate_model_inv (y_true y_pred : list Z)
    (errors : list npfloat) (thr : npfloat) (m : Metrics) :
  evaluate_model y_true y_pred errors thr = Ok m →
  ∃ a b,
    unique_labels y_true y_pred = [a; b] ∧ (a < b)%Z
    ∧ length y_true = length y_pred ∧ (0 < length y_true)%nat
    ∧ true_negatives m = count_pairs y_true y_pred a a
    ∧ false_positives m = count_pairs y_true y_pred a b
    ∧ false_negatives m = count_pairs y_true y_pred b a
    ∧ true_positives m = count_pairs y_true y_pred b b
    ∧ (0 ≤ true_negatives m ∧ 0 ≤ false_positives m
       ∧ 0 ≤ false_negatives m ∧ 0 ≤ true_positives m)%Z
    ∧ (true_positives m + true_negatives m + false_positives m + false_negatives m
       = Z.of_nat (length y_true))%Z
    ∧ accuracy m
      = div_counts (true_positives m + true_negatives m)
          (true_positives m + true_negatives m
           + false_positives m + false_negatives m)
    ∧ unit_interval (accuracy m) ∧ unit_interval (precision m)
    ∧ unit_interval (recall m) ∧ unit_interval (f1_score m)
    ∧ unit_interval (false_positive_rate m)
    ∧ detection_rate m = recall m.
Proof.
  intros Hev. unfold evaluate_model, confusion_matrix in Hev.
  destruct (Nat.eqb_spec (length y_true) (length y_pred)) as [Hlen|]; [|discriminate].
  pose proof (unique_labels_sorted y_true y_pred) as Hsorted.
  pose proof (fun y => elem_of_unique_labels y y_true y_pred) as Hmem.
  remember (unique_labels y_true y_pred) as L eqn:HL.
  pose proof (length_ravel_square (count_pairs y_true y_pred) L L) as Hsq.
  cbn [negb mbind result_bind] in Hev.
  remember (ravel (map (fun a => map (count_pairs y_true y_pred a) L) L)) as r eqn:Hr.
  destruct r as [|tn [|fp [|fn [|tp [|x r]]]]]; try discriminate.
  simpl in Hsq.
  destruct L as [|a [|b [|c L]]]; simpl in Hsq; try lia.
  simpl in Hr. injection Hr as -> -> -> ->.
  apply Sorted_inv in Hsorted as [_ Hab]. apply HdRel_inv in Hab.
  assert (Ht : Forall (fun t => t = a ∨ t = b) y_true).
  { apply Forall_forall. intros t Hin.
    assert (Hl : t ∈ [a; b]) by (apply Hmem; left; exact Hin).
    rewrite !elem_of_cons, elem_of_nil in Hl. tauto. }
  assert (Hp : Forall (fun p => p = a ∨ p = b) y_pred).
  { apply Forall_forall. intros t Hin.
    assert (Hl : t ∈ [a; b]) by (apply Hmem; right; exact Hin).
    rewrite !elem_of_cons, elem_of_nil in Hl. tauto. }
  assert (Hsum := count_pairs_partition a b y_true y_pred ltac:(lia) Ht Hp Hlen).
  pose proof (count_pairs_nonneg y_true y_pred a a) as Haa.
  pose proof (count_pairs_nonneg y_true y_pred a b) as Hab'.
  pose proof (count_pairs_nonneg y_true y_pred b a) as Hba.
  pose proof (count_pairs_nonneg y_true y_pred b b) as Hbb.
  assert (Hpos : (0 < length y_true)%nat).
  { destruct y_true as [|t y_true]; [|simpl; lia].
    destruct y_pred; [|discriminate].
    assert (Hl : a ∈ unique_labels [] []) by (rewrite <- HL; left).
    apply elem_of_nil in Hl. contradiction. }
  injection Hev as <-. simpl. exists a, b.
  assert (Hprec : unit_interval
            (if (0 <? count_pairs y_true y_pred b b + count_pairs y_true y_pred a b)%Z
             then div_counts (count_pairs y_true y_pred b b)
                    (count_pairs y_true y_pred b b + count_pairs y_true y_pred a b)
             else 0)).
  { apply guarded_rate_unit; assumption. }
  assert (Hrec : unit_interval
            (if (0 <? count_pairs y_true y_pred b b + count_pairs y_true y_pred b a)%Z
             then div_counts (count_pairs y_true y_pred b b)
                    (count_pairs y_true y_pred b b + count_pairs y_true y_pred b a)
             else 0)).
  { apply guarded_rate_unit; assumption. }
  repeat match goal with |- _ ∧ _ => split end;
    try reflexivity; try assumption; try lia.
  - apply div_counts_unit. lia.
  - apply f1_unit; assumption.
  - apply guarded_rate_unit; assumption.
Qed.

(** X4. Whenever [evaluate_model] returns, exactly two classes a < b occur
    in the labels; the smaller is counted as negative and the larger as
    positive.  The four counts are non-negative and add up to the number
    of samples, which is positive; accuracy is (tp + tn) / (tp + tn + fp +
    fn); accuracy, precision, recall, F1 and the false-positive rate lie
    between 0 and 1; and the detection rate is the recall. *)
Theorem evaluate_model_metrics_wellformed (y_true y_pred : list Z)
    (errors : list npfloat) (thr : npfloat) (m : Metrics) :
  evaluate_model y_true y_pred errors thr = Ok m →
  ∃ a b,
    unique_labels y_true y_pred = [a; b] ∧ (a < b)%Z
    ∧ length y_true = length y_pred ∧ (0 < length y_true)%nat
    ∧ true_negatives m = count_pairs y_true y_pred a a
    ∧ false_positives m = count_pairs y_true y_pred a b
    ∧ false_negatives m = count_pairs y_true y_pred b a
    ∧ true_positives m = count_pairs y_true y_pred b b
    ∧ (0 ≤ true_negatives m ∧ 0 ≤ false_positives m
       ∧ 0 ≤ false_negatives m ∧ 0 ≤ true_positives m)%Z
    ∧ (true_positives m + true_negatives m + false_positives m + false_negatives m
       = Z.of_nat (length y_true))%Z
    ∧ accuracy m
      = div_counts (true_positives m + true_negatives m)
          (true_positives m + true_negatives m
           + false_positives m + false_negatives m)
    ∧ unit_interval (accuracy m) ∧ unit_interval (precision m)
    ∧ unit_interval (recall m) ∧ unit_interval (f1_score m)
    ∧ unit_interval (false_positive_rate m)
    ∧ detection_rate m = recall m.
Proof. apply evaluate_model_inv. Qed.

Lemma evaluate_model_metrics_wellformed_witness :
  ∃ m a b,
    unique_labels [0; 1; 1; 0]%Z [0; 0; 1; 1]%Z = [a; b] ∧ (a < b)%Z
    ∧ length [0; 1; 1; 0]%Z = length [0; 0; 1; 1]%Z
    ∧ (0 < length [0; 1; 1; 0]%Z)%nat
    ∧ true_negatives m = count_pairs [0; 1; 1; 0]%Z [0; 0; 1; 1]%Z a a
    ∧ false_positives m = count_pairs [0; 1; 1; 0]%Z [0; 0; 1; 1]%Z a b
    ∧ false_negatives m = count_pairs [0; 1; 1; 0]%Z [0; 0; 1; 1]%Z b a
    ∧ true_positives m = count_pairs [0; 1; 1; 0]%Z [0; 0; 1; 1]%Z b b
    ∧ (0 ≤ true_negatives m ∧ 0 ≤ false_positives m
       ∧ 0 ≤ false_negatives m ∧ 0 ≤ true_positives m)%Z
    ∧ (true_positives m + true_negatives m + false_positives m + false_negatives m
       = Z.of_nat (length [0; 1; 1; 0]%Z))%Z
    ∧ accuracy m
      = div_counts (true_positives m + true_negatives m)
          (true_positives m + true_negatives m
           + false_positives m + false_negatives m)
    ∧ unit_interval (accuracy m) ∧ unit_interval (precision m)
    ∧ unit_interval (recall m) ∧ unit_interval (f1_score m)
    ∧ unit_interval (false_positive_rate m)
    ∧ detection_rate m = recall m.
Proof.
  eexists.
  apply (evaluate_model_metrics_wellformed [0; 1; 1; 0]%Z [0; 0; 1; 1]%Z [] nan).
  vm_compute. reflexivity.
Defined.

End MetricsWellFormed.

(** ** Score range (optimize_threshold.find_optimal_threshold) *)

Section ScoreRange.
Import TrainModel OptimizeThreshold.

(** X5. The score of the fallback sweep, detection_rate minus the (possibly
    doubled) false-positive rate, lies between -2 and 1 for every
    candidate whose evaluation returns. *)
Theorem balance_score_range (test_errors : list npfloat) (y_test : list Z)
    (thr : npfloat) (target_fpr : Q) (m : Metrics) :
  evaluate_candidate test_errors y_test thr = Ok m →
  - (2) <= balance_score target_fpr m ∧ balance_score target_fpr m <= 1.
Proof.
  unfold evaluate_candidate. intros Hev.
  destruct (evaluate_model_inv _ _ _ _ _ Hev)
    as (a & b & _ & _ & _ & _ & _ & _ & _ & _ & _ & _ & _ & _ & _ & Hrec & _ & Hfpr & Hdr).
  unfold balance_score. rewrite Hdr.
  destruct Hrec as [Hr0 Hr1], Hfpr as [Hf0 Hf1].
  destruct (Qgtb (false_positive_rate m) target_fpr); lra.
Qed.

Lemma balance_score_range_witness :
  ∃ m, - (2) <= balance_score (1 # 10) m ∧ balance_score (1 # 10) m <= 1.
Proof.
  eexists.
  apply (balance_score_range inverted_test_errors inverted_labels (fin 1) (1 # 10)).
  vm_compute. reflexivity.
Defined.

End ScoreRange.

(** ** Which rows reach a window (preprocess.create_sequences) *)

Section WindowRows.
Import Preprocess.

(** X6. Every row of every window is a row of the data, row i + j for the
    j-th row of window i, and that row is never the last one: the final
    row of the table belongs to no window. *)
Theorem last_row_is_never_windowed {A : Type} (data : list A) (L i j : nat)
    (w : list A) (r : A) :
  create_sequences data L !! i = Some w →
  w !! j = Some r →
  data !! (i + j)%nat = Some r ∧ (i + j < length data - 1)%nat.
Proof.
  intros Hw Hr.
  assert (Hi : (i < length data - L)%nat).
  { apply lookup_lt_Some in Hw. rewrite length_create_sequences in Hw. exact Hw. }
  rewrite lookup_create_sequences in Hw by exact Hi. injection Hw as <-.
  apply lookup_take_Some in Hr as [Hr Hj]. rewrite lookup_drop in Hr.
  split; [exact Hr | lia].
Qed.

Lemma last_row_is_never_windowed_witness :
  [1; 2; 3; 4]%nat !! (1 + 1)%nat = Some 3%nat
  ∧ (1 + 1 < length [1; 2; 3; 4]%nat - 1)%nat.
Proof.
  apply (last_row_is_never_windowed [1; 2; 3; 4]%nat 2 1 1 [2; 3]%nat 3%nat);
    reflexivity.
Defined.

End WindowRows.

(** ** Shapes through the preprocessors *)

Section Shapes.
Import Preprocess.

Lemma mapM_Ok {A B : Type} (f : A → result B) (l : list A) (l' : list B) :
  mapM f l = Ok l' → Forall2 (fun x y => f x = Ok y) l l'.
Proof.
  revert l'. induction l as [|x l IH]; intros l'; simpl.
  - intros [= <-]. constructor.
  - destruct (f x) as [y|e] eqn:Hx; [|discriminate]. simpl.
    destruct (mapM f l) as [k|e]; [|discriminate]. simpl.
    intros [= <-]. constructor; [exact Hx | apply IH; reflexivity].
Qed.

(** A numeric matrix has the shape of the cells it was read from, and none
    of those cells is text. *)
Lemma to_float_matrix_shape (rs : list (list cell)) (m : list (list npfloat)) :
  to_float_matrix rs = Ok m →
  Forall2 (fun r fr => length fr = length r ∧ Forall (fun c => Preprocess.is_str c = false) r)
          rs m.
Proof.
  unfold to_float_matrix. intros Hm. apply mapM_Ok in Hm.
  induction Hm as [|r fr rs m Hr _ IH]; constructor; [|exact IH].
  apply mapM_Ok in Hr. split.
  - symmetry. eapply Forall2_length, Hr.
  - clear -Hr. induction Hr as [|c x r fr Hc _ IH]; constructor; [|exact IH].
    destruct c; [reflexivity | discriminate | reflexivity].
Qed.

Lemma length_scaler_transform (s : StandardScaler) (m : list (list npfloat)) :
  length (scaler_transform s m) = length m.
Proof. apply length_map. Qed.

Lemma scaler_transform_rows (s : StandardScaler) (m : list (list npfloat)) (n : nat) :
  length (mean_ s) = n → length (scale_ s) = n →
  Forall (fun r => length r = n) m →
  Forall (fun r => length r = n) (scaler_transform s m).
Proof.
  intros Hmean Hscale Hm. unfold scaler_transform. apply Forall_map.
  eapply Forall_impl; [exact Hm|]. intros r Hr. simpl.
  simpl in Hr. rewrite !length_zip_with. lia.
Qed.

Lemma scaler_fit_lengths `{Numeric} (raw : list (list npfloat)) (n : nat)
    (s : StandardScaler) :
  scaler_fit raw n = Ok s →
  raw ≠ [] ∧ length (mean_ s) = n ∧ length (var_ s) = n ∧ length (scale_ s) = n.
Proof.
  intros Hfit. destruct (scaler_fit_inv raw n s Hfit) as (Hne & Hm & Hv & Hs).
  rewrite Hs, Hm, Hv, !length_map, !length_seq. repeat split. exact Hne.
Qed.

End Shapes.

Section RequestShape.
Import Preprocess App.

Lemma length_rows_drop_column (c : string) (df : DataFrame) :
  length (rows (drop_column c df)) = length (rows df).
Proof.
  unfold drop_column. destruct (col_index c (columns df)); [|reflexivity].
  simpl. apply length_map.
Qed.

(** What [required_frame] returns when it returns: no required column is
    missing, and the frame has the four required columns and the rows of
    the upload. *)
Lemma required_frame_Ok (df frame : DataFrame) :
  required_frame df = Ok frame →
  missing_required df = []
  ∧ columns frame = expected_features
  ∧ length (rows frame) = length (rows df)
  ∧ Forall (fun r => length r = 4%nat) (rows frame).
Proof.
  intros Hframe.
  assert (Hmiss : missing_required df = []).
  { destruct (missing_required df) as [|f l] eqn:Hm; [reflexivity|].
    rewrite required_frame_missing in Hframe by (rewrite Hm; discriminate).
    discriminate. }
  split; [exact Hmiss|]. unfold required_frame in Hframe.
  set (df1 := if has_column "ts" df then drop_column "ts" df else df) in *.
  set (df2 := if has_column "label" df1 then drop_column "label" df1 else df1) in *.
  destruct (filter _ expected_features); [|discriminate].
  injection Hframe as <-. simpl. split; [reflexivity|]. split.
  - rewrite length_map. unfold df2, df1.
    repeat (destruct (has_column _ _)); rewrite ?length_rows_drop_column; reflexivity.
  - apply Forall_map, Forall_forall. intros r _. reflexivity.
Qed.

(** What [preprocess_for_detection] did, when it returns. *)
Lemma preprocess_for_detection_inv `{Numeric} `{Runtime} (path : string)
    (sequences : list window) (original_df : DataFrame) (features : list string) :
  preprocess_for_detection path = Ok (sequences, original_df, features) →
  read_csv path = Ok original_df
  ∧ features = expected_features
  ∧ (∀ f, f ∈ expected_features → f ∈ columns original_df)
  ∧ (10 < length (rows original_df))%nat
  ∧ length sequences = (length (rows original_df) - 10)%nat
  ∧ Forall (fun w => length w = 10%nat ∧ Forall (fun r => length r = 4%nat) w)
           sequences.
Proof.
  unfold preprocess_for_detection. intros Hpre.
  destruct (read_csv path) as [df|e]; [|discriminate]. simpl in Hpre.
  destruct (required_frame df) as [frame|e] eqn:Hframe; [|discriminate].
  simpl in Hpre.
  destruct (fit_transform frame) as [[s normalized]|e] eqn:Hft; [|discriminate].
  simpl in Hpre.
  destruct (request_windows normalized) as [seqs|e] eqn:Hwin; [|discriminate].
  simpl in Hpre. injection Hpre as <- <- <-.
  destruct (required_frame_Ok df frame Hframe) as (Hmiss & Hcols & Hrows & Hwidth).
  destruct (fit_transform_inv frame s normalized Hft) as (raw & Hraw & Hfit & ->).
  rewrite Hcols in Hfit. change (length expected_features) with 4%nat in Hfit.
  destruct (scaler_fit_lengths raw 4 s Hfit) as (_ & Hmean & _ & Hscale).
  pose proof (to_float_matrix_shape _ _ Hraw) as Hshape.
  assert (Hlen : length raw = length (rows df)).
  { rewrite <- Hrows. symmetry. eapply Forall2_length, Hshape. }
  assert (Hraw4 : Forall (fun r => length r = 4%nat) raw).
  { apply Forall_forall. intros fr Hfr.
    apply list_elem_of_lookup_1 in Hfr as [i Hi].
    destruct (Forall2_lookup_r _ _ _ _ _ Hshape Hi) as (r & Hr & Hfr & _).
    rewrite Hfr. eapply Forall_lookup_1 in Hwidth; [exact Hwidth | exact Hr]. }
  pose proof (scaler_transform_rows s raw 4 Hmean Hscale Hraw4) as Hnorm4.
  rewrite request_windows_spec, length_scaler_transform in Hwin.
  destruct (Nat.leb_spec (length raw) 10) as [|Hlong]; [discriminate|].
  injection Hwin as <-.
  split; [reflexivity|]. split; [reflexivity|]. split.
  { intros f Hf. destruct (decide (f ∈ columns df)) as [Hin|Hout]; [exact Hin|].
    assert (Hm : f ∈ missing_required df) by (apply elem_of_missing_required; tauto).
    rewrite Hmiss in Hm. apply elem_of_nil in Hm. contradiction. }
  split; [lia|]. split.
  - unfold window. rewrite length_create_sequences, length_scaler_transform, Hlen.
    reflexivity.
  - apply Forall_forall. intros w Hw.
    apply list_elem_of_lookup_1 in Hw as [i Hi].
    assert (Hi' : (i < length (scaler_transform s raw) - 10)%nat).
    { apply lookup_lt_Some in Hi. rewrite length_create_sequences in Hi. exact Hi. }
    rewrite lookup_create_sequences in Hi by exact Hi'. injection Hi as <-.
    split; [apply length_slice; lia | apply Forall_slice, Hnorm4].
Qed.

(** X7. When [preprocess_for_detection] returns, the upload was read, it
    has all four required columns and more than ten rows, and the result
    is one window per row but the last ten: N - 10 windows of shape
    (10, 4), with the table as read and the four feature names. *)
Theorem preprocess_for_detection_shape `{Numeric} `{Runtime} (path : string)
    (sequences : list window) (original_df : DataFrame) (features : list string) :
  preprocess_for_detection path = Ok (sequences, original_df, features) →
  read_csv path = Ok original_df
  ∧ features = expected_features
  ∧ (∀ f, f ∈ expected_features → f ∈ columns original_df)
  ∧ (10 < length (rows original_df))%nat
  ∧ length sequences = (length (rows original_df) - 10)%nat
  ∧ Forall (fun w => length w = 10%nat ∧ Forall (fun r => length r = 4%nat) w)
           sequences.
Proof. apply preprocess_for_detection_inv. Qed.

Lemma preprocess_for_detection_shape_witness :
  ∃ (sequences : list window) original_df features,
    @read_csv demo_runtime "upload.csv" = Ok original_df
    ∧ features = expected_features
    ∧ (∀ f, f ∈ expected_features → f ∈ columns original_df)
    ∧ (10 < length (rows original_df))%nat
    ∧ length sequences = (length (rows original_df) - 10)%nat
    ∧ Forall (fun w => length w = 10%nat ∧ Forall (fun r => length r = 4%nat) w)
             sequences.
Proof.
  eexists _, _, _.
  apply (@preprocess_for_detection_shape exact_sqrt demo_runtime "upload.csv").
  vm_compute. reflexivity.
Defined.

End RequestShape.

(** ** When the training pipeline returns (preprocess.preprocess_pipeline) *)

Section PipelineReturns.
Import Preprocess.

Lemma col_index_Some (c : string) (cols : list string) :
  c ∈ cols → ∃ i, col_index c cols = Some i.
Proof.
  induction cols as [|c' cols IH]; [intros Hin; apply elem_of_nil in Hin; contradiction|].
  intros Hin. simpl. destruct (String.eqb_spec c c') as [->|Hne]; [eauto|].
  apply elem_of_cons in Hin as [->|Hin]; [contradiction|].
  destruct (IH Hin) as [i ->]. simpl. eauto.
Qed.

Lemma length_label_vector (c : string) (df : DataFrame) :
  has_column c df = true → length (label_vector c df) = length (rows df).
Proof.
  intros Hin. apply has_column_true, col_index_Some in Hin as [i Hi].
  unfold label_vector, column. rewrite Hi.
  destruct (dtype_object _); rewrite ?length_map; reflexivity.
Qed.

(** [clean_data] keeps the rows that have no missing value and drops the
    others. *)
Lemma clean_data_rows `{Numeric} (df d : DataFrame) (cols : list string)
    (s : option StandardScaler) (e : list string) :
  clean_data df cols = Ok (d, s, e) →
  length (rows d) = length (rows (dropna df)) ∧ columns d = columns df.
Proof.
  unfold clean_data. intros Hclean.
  destruct (filter _ cols) as [|c0 present] eqn:Hpresent.
  - injection Hclean as <- _ _. split; reflexivity.
  - remember (c0 :: present) as cs.
    destruct (fit_transform (select cs (dropna df))) as [[s' t]|e'] eqn:Hft;
      [|subst cs; discriminate].
    assert (Hd : d = assign_columns cs t (dropna df)).
    { subst cs. simpl in Hclean. injection Hclean as <- _ _. reflexivity. }
    destruct (fit_transform_inv _ s' t Hft) as (raw & Hraw & _ & ->).
    pose proof (to_float_matrix_shape _ _ Hraw) as Hshape.
    apply Forall2_length in Hshape. simpl in Hshape. rewrite length_map in Hshape.
    subst d. simpl. split; [|reflexivity].
    rewrite length_zip_with, length_scaler_transform. lia.
Qed.

(** X8. With a label column, [preprocess_pipeline] returns only if no row
    of the feature table has a missing value, and, when windows are
    requested, only if the table has more than [seq_length] rows (or
    none).  The labels are taken before rows are dropped, so after a
    dropped row, or with too few rows to cut one window, the label vector
    and the feature matrix differ in length and the train/test split
    raises. *)
Theorem preprocess_pipeline_labelled_requires `{Numeric} `{Runtime}
    (path : string) (df : DataFrame) (numeric_cols : list string) (c : string)
    (create_seq : bool) (L : nat) (result : Pipeline) :
  c ≠ "" → read_csv path = Ok df → has_column c df = true →
  preprocess_pipeline path numeric_cols (Some c) create_seq L = Ok result →
  length (rows (dropna (drop_column c df))) = length (rows df)
  ∧ (create_seq = true → (L < length (rows df))%nat ∨ rows df = []).
Proof.
  intros Hc Hread Hin Hrun. unfold preprocess_pipeline in Hrun.
  rewrite Hread in Hrun. simpl in Hrun.
  rewrite (prepare_labelled df numeric_cols c create_seq L Hc Hin) in Hrun.
  destruct (clean_data (drop_column c df) numeric_cols) as [[[d s] e]|e] eqn:Hclean;
    [|discriminate].
  destruct (clean_data_rows _ _ _ _ _ Hclean) as [Hd _].
  pose proof (length_label_vector c df Hin) as Hy.
  assert (Hle : (length (rows (dropna (drop_column c df))) ≤ length (rows df))%nat).
  { rewrite <- (length_rows_drop_column c df). simpl. apply length_filter. }
  destruct create_seq; simpl in Hrun; unfold split_train_test in Hrun; simpl in Hrun.
  - rewrite length_create_sequences in Hrun.
    destruct (Nat.ltb_spec 0 (length (rows d) - L)) as [Hpos|Hzero]; simpl in Hrun.
    + rewrite length_drop in Hrun.
      destruct (Nat.eqb_spec (length (label_vector c df) - L) (length (rows d) - L));
        [|discriminate].
      split; [lia|]. intros _. left. lia.
    + destruct (Nat.eqb_spec (length (label_vector c df)) (length (rows d) - L));
        [|discriminate].
      split; [lia|]. intros _. right.
      destruct (rows df); [reflexivity | simpl in *; lia].
  - destruct (Nat.eqb_spec (length (label_vector c df)) (length (rows d)));
      [|discriminate].
    split; [lia | discriminate].
Qed.

Lemma preprocess_pipeline_labelled_requires_witness :
  length (rows (dropna (drop_column "label" demo_upload))) = length (rows demo_upload)
  ∧ (true = true → (10 < length (rows demo_upload))%nat ∨ rows demo_upload = []).
Proof.
  eapply (@preprocess_pipeline_labelled_requires exact_sqrt demo_runtime
            "upload.csv" demo_upload App.expected_features "label" true 10).
  - discriminate.
  - reflexivity.
  - reflexivity.
  - vm_compute. reflexivity.
Defined.

End PipelineReturns.

(** ** The model and threshold cache (app.load_ml_model) *)

Section ModelCache.
Import App.

(** X9. A call of [load_ml_model] that returns leaves the returned pair in
    the globals; a model or threshold that was already cached is returned
    unchanged; and once a model is returned, the next call returns the same
    pair from the globals alone, whatever the files hold by then. *)
Theorem load_ml_model_caches `{Runtime} (g g' : Globals) (mo : option Model)
    (t : npfloat) :
  load_ml_model g = (Ok (mo, t), g') →
  MODEL g' = mo ∧ THRESHOLD g' = Some t
  ∧ (∀ m, MODEL g = Some m → mo = Some m)
  ∧ (∀ t0, THRESHOLD g = Some t0 → t = t0)
  ∧ (∀ m, mo = Some m → load_ml_model g' = (Ok (Some m, t), g')).
Proof.
  unfold load_ml_model. intros Hload.
  assert (Hstate : MODEL g' = mo ∧ THRESHOLD g' = Some t
                   ∧ (∀ m, MODEL g = Some m → mo = Some m)
                   ∧ (∀ t0, THRESHOLD g = Some t0 → t = t0)).
  { destruct g as [gm gt]. simpl in *.
    destruct gm as [m0|].
    - destruct gt as [t0|]; simpl in Hload.
      + injection Hload as <- <- <-. simpl.
        repeat split; intros ? [= <-]; reflexivity.
      + destruct (path_exists _).
        * destruct (read_float _); [|discriminate].
          injection Hload as <- <- <-. simpl.
          repeat split; [intros ? [= <-]; reflexivity | discriminate].
        * injection Hload as <- <- <-. simpl.
          repeat split; [intros ? [= <-]; reflexivity | discriminate].
    - destruct (path_exists "models/lstm_model.keras").
      + destruct (load_model _) as [m1|e]; simpl in Hload; [|discriminate].
        destruct gt as [t0|].
        * injection Hload as <- <- <-. simpl.
          repeat split; [discriminate | intros ? [= <-]; reflexivity].
        * destruct (path_exists _).
          -- destruct (read_float _); [|discriminate].
             injection Hload as <- <- <-. simpl. repeat split; discriminate.
          -- injection Hload as <- <- <-. simpl. repeat split; discriminate.
      + simpl in Hload. destruct gt as [t0|].
        * injection Hload as <- <- <-. simpl.
          repeat split; [discriminate | intros ? [= <-]; reflexivity].
        * destruct (path_exists _).
          -- destruct (read_float _); [|discriminate].
             injection Hload as <- <- <-. simpl. repeat split; discriminate.
          -- injection Hload as <- <- <-. simpl. repeat split; discriminate. }
  destruct Hstate as (Hm & Ht & Hkeepm & Hkeept).
  repeat split; try assumption.
  clear Hload Hkeepm Hkeept. intros m ->.
  destruct g' as [gm gt]. simpl in *. subst gm gt. reflexivity.
Qed.

Lemma load_ml_model_caches_witness :
  let g := @Build_Globals demo_runtime None None in
  let g' := @Build_Globals demo_runtime (Some tt) (Some (fin (12 # 100))) in
  load_ml_model g = (Ok (Some tt, fin (12 # 100)), g')
  ∧ load_ml_model g' = (Ok (Some tt, fin (12 # 100)), g').
Proof.
  split; [reflexivity|].
  apply (@load_ml_model_caches demo_runtime
           (@Build_Globals demo_runtime None None) _ (Some tt) (fin (12 # 100)));
    reflexivity.
Defined.

End ModelCache.

(** ** The report of a completed detection (app.detect_anomalies) *)

Section DetectionReport.
Import TrainModel Preprocess App.

(** The flagged indices are positions of the error vector, each with its
    own error, and that error exceeds the threshold. *)
Lemma elem_of_anomalies (errors : list npfloat) (thr : npfloat) (i : nat)
    (e : npfloat) :
  (i, e) ∈ anomalies errors thr ↔ errors !! i = Some e ∧ fgt e thr = true.
Proof.
  unfold anomalies. rewrite list_elem_of_filter. simpl.
  rewrite elem_of_lookup_imap. split.
  - intros (Hgt & j & y & [= -> ->] & Hj). split; assumption.
  - intros (Hi & Hgt). split; [exact Hgt|]. exists i, e. split; [reflexivity|exact Hi].
Qed.

(** The flagged indices come in increasing order. *)
Lemma anomalies_increasing (errors : list npfloat) (thr : npfloat) :
  StronglySorted lt (map fst (anomalies errors thr)).
Proof.
  unfold anomalies.
  assert (Hgen : ∀ (k : nat) (l : list npfloat),
             StronglySorted lt
               (map fst (filter (fun a : nat * npfloat => fgt a.2 thr = true)
                                (imap (fun i e => ((k + i)%nat, e)) l)))
             ∧ Forall (fun i => (k ≤ i)%nat)
                 (map fst (filter (fun a : nat * npfloat => fgt a.2 thr = true)
                                  (imap (fun i e => ((k + i)%nat, e)) l)))).
  { intros k l. revert k. induction l as [|e l IH]; intros k.
    - split; constructor.
    - rewrite imap_cons.
      assert (Htail : imap ((fun i e0 => ((k + i)%nat, e0)) ∘ S) l
                      = imap (fun i e0 => ((S k + i)%nat, e0)) l).
      { apply imap_ext. intros i x _. simpl. f_equal. lia. }
      rewrite Htail. destruct (IH (S k)) as [Hs Hb].
      destruct (fgt e thr) eqn:E.
      + rewrite filter_cons_True by exact E. simpl. rewrite Nat.add_0_r. split.
        * constructor; [exact Hs|].
          eapply Forall_impl; [exact Hb|]. intros i Hi. simpl in Hi. lia.
        * constructor; [lia|].
          eapply Forall_impl; [exact Hb|]. intros i Hi. simpl in Hi. lia.
      + rewrite filter_cons_False by (simpl; rewrite E; discriminate). split.
        * exact Hs.
        * eapply Forall_impl; [exact Hb|]. intros i Hi. simpl in Hi. lia. }
  destruct (Hgen 0%nat errors) as [Hs _]. exact Hs.
Qed.

Lemma StronglySorted_take {A : Type} (R : A → A → Prop) (n : nat) (l : list A) :
  StronglySorted R l → StronglySorted R (take n l).
Proof.
  intros Hl. revert n. induction Hl as [|x l Hl IH Hx]; intros [|n]; simpl;
    try constructor.
  - apply IH.
  - rewrite Forall_forall in *. intros y Hy. apply Hx.
    eapply subseteq_take, Hy.
Qed.

(** X10. The report of a detection that completes.  For an upload of N
    rows, [total_samples] is N - 10 and is positive; [anomalies_count] is
    the number k of windows whose error exceeds the threshold, at most
    N - 10, and [percentage] is the float 100 k / (N - 10); [details] has
    min(100, k) entries, in increasing order of [sequence_id]; each entry
    is a window index below N - 10 whose error exceeds the threshold,
    carries the threshold used and a sample row, and is High exactly when
    its error exceeds 1.5 times the threshold; an alert is attempted
    exactly when k > 0; and the report has no [error] key. *)
Theorem detect_with_report `{Numeric} `{Runtime} (model : Model) (thr : npfloat)
    (file_path : string) (report : gmap string pyval)
    (alert : option alert_outcome) :
  detect_with model thr file_path = Ok (report, alert) →
  ∃ (df : DataFrame) (k : nat) (details : list Detail),
    read_csv file_path = Ok df
    ∧ (10 < length (rows df))%nat
    ∧ (k ≤ length (rows df) - 10)%nat
    ∧ report !! "total_samples" = Some (VInt (Z.of_nat (length (rows df) - 10)))
    ∧ report !! "anomalies_count" = Some (VInt (Z.of_nat k))
    ∧ report !! "percentage"
      = Some (VFloat (fin (inject_Z (Z.of_nat k)
                           / inject_Z (Z.of_nat (length (rows df) - 10)) * 100)))
    ∧ report !! "threshold" = Some (VFloat thr)
    ∧ report !! "details" = Some (VDetails details)
    ∧ report !! "error" = None
    ∧ length details = Nat.min 100 k
    ∧ StronglySorted Z.lt (map sequence_id details)
    ∧ Forall (fun d =>
        (0 ≤ sequence_id d < Z.of_nat (length (rows df) - 10))%Z
        ∧ fgt (detail_error d) thr = true
        ∧ detail_threshold d = thr
        ∧ (severity d = "High" ∨ severity d = "Medium")
        ∧ (severity d = "High" ↔ fgt (detail_error d) (fmul thr (fin (3 # 2))) = true)
        ∧ is_Some (sample_data d)) details
    ∧ (is_Some alert ↔ (0 < k)%nat).
Proof.
  unfold detect_with. intros Hrun.
  destruct (preprocess_for_detection file_path) as [[[sequences df] features]|e]
    eqn:Hpre; [|discriminate].
  simpl in Hrun.
  destruct (model_predict model sequences) as [reconstructed|e]; [|discriminate].
  simpl in Hrun.
  set (errors := zip_with window_mse sequences reconstructed) in *.
  destruct (preprocess_for_detection_inv _ _ _ _ Hpre)
    as (Hread & _ & _ & Hlong & Hlen & _).
  assert (Herrors : (length errors ≤ length (rows df) - 10)%nat).
  { unfold errors. rewrite length_zip_with, Hlen. lia. }
  assert (Hk : (length (anomalies errors thr) ≤ length errors)%nat).
  { unfold anomalies. etransitivity; [apply length_filter|].
    rewrite length_imap. reflexivity. }
  assert (Hpos : (0 <? Z.of_nat (length sequences))%Z = true).
  { apply Z.ltb_lt. rewrite Hlen. lia. }
  rewrite Hpos in Hrun. injection Hrun as <- <-.
  exists df, (length (anomalies errors thr)),
    (map (make_detail df thr) (take 100 (anomalies errors thr))).
  rewrite Hlen.
  split; [exact Hread|]. split; [exact Hlong|]. split; [lia|].
  split; [by simplify_map_eq|]. split; [by simplify_map_eq|].
  split; [by simplify_map_eq|]. split; [by simplify_map_eq|].
  split; [by simplify_map_eq|]. split; [by simplify_map_eq|].
  split; [rewrite length_map, length_take; reflexivity|].
  split.
  { pose proof (anomalies_increasing errors thr) as Hinc.
    assert (Htake : StronglySorted lt (map fst (take 100 (anomalies errors thr)))).
    { change (map fst (take 100 (anomalies errors thr)))
        with (fst <$> take 100 (anomalies errors thr)).
      rewrite fmap_take. apply StronglySorted_take, Hinc. }
    rewrite map_map.
    induction (take 100 (anomalies errors thr)) as [|[i e] l IH]; [constructor|].
    apply StronglySorted_inv in Htake as [Hl Hi]. simpl. constructor.
    - apply IH, Hl.
    - apply Forall_map, Forall_forall. intros [j e'] Hj. simpl.
      rewrite Forall_forall in Hi. specialize (Hi j).
      assert (Hin : j ∈ map fst l).
      { apply list_elem_of_fmap. exists (j, e'). split; [reflexivity|exact Hj]. }
      apply Hi in Hin. simpl in Hin. lia. }
  split.
  { apply Forall_map, Forall_forall. intros [i e] Hin.
    apply subseteq_take in Hin.
    apply elem_of_anomalies in Hin as [Hi Hgt].
    apply lookup_lt_Some in Hi as Hlt. simpl.
    split; [lia|]. split; [exact Hgt|]. split; [reflexivity|].
    split; [destruct (fgt e (fmul thr (fin (3 # 2)))); [left|right]; reflexivity|].
    split.
    - destruct (fgt e (fmul thr (fin (3 # 2)))); split; try reflexivity; discriminate.
    - destruct (lookup_lt_is_Some_2 (rows df) i) as [r ->]; [lia|]. eauto. }
  destruct (anomalies errors thr) as [|a l]; simpl.
  - split; [intros [? [=]] | lia].
  - split; [lia | eauto].
Qed.

(** The demo upload against the demo process, at threshold 0.12. *)
Definition demo_outcome : gmap string pyval * option alert_outcome :=
  match @detect_with exact_sqrt demo_runtime tt (fin (12 # 100)) "upload.csv" with
  | Ok outcome => outcome
  | Raise _ => (∅, None)
  end.

Lemma demo_outcome_returned :
  @detect_with exact_sqrt demo_runtime tt (fin (12 # 100)) "upload.csv"
  = Ok (demo_outcome.1, demo_outcome.2).
Proof. vm_compute. reflexivity. Qed.

Lemma detect_with_report_witness :
  ∃ (df : DataFrame) (k : nat) (details : list Detail),
    @read_csv demo_runtime "upload.csv" = Ok df
    ∧ (10 < length (rows df))%nat
    ∧ (k ≤ length (rows df) - 10)%nat
    ∧ length details = Nat.min 100 k.
Proof.
  destruct (@detect_with_report exact_sqrt demo_runtime tt (fin (12 # 100))
              "upload.csv" demo_outcome.1 demo_outcome.2 demo_outcome_returned)
    as (df & k & details & Hread & Hlong & Hk & _ & _ & _ & _ & _ & _ & Hlen & _).
  exists df, k, details. repeat split; assumption.
Defined.

End DetectionReport.

(** ** Percentiles (np.percentile as the thresholds use it) *)

Section Percentiles.
Import TrainModel OptimizeThreshold Baseline.

Lemma insert_sorted_perm (x : Q) (xs : list Q) : insert_sorted x xs ≡ₚ x :: xs.
Proof.
  induction xs as [|y ys IH]; simpl; [reflexivity|].
  destruct (Qle_bool x y); [reflexivity|].
  rewrite IH. apply Permutation_swap.
Qed.

Lemma Qsort_perm (xs : list Q) : Qsort xs ≡ₚ xs.
Proof.
  induction xs as [|x xs IH]; simpl; [reflexivity|].
  rewrite insert_sorted_perm, IH. reflexivity.
Qed.

Lemma insert_sorted_sorted (x : Q) (xs : list Q) :
  StronglySorted Qle xs → StronglySorted Qle (insert_sorted x xs).
Proof.
  induction 1 as [|y ys Hys IH Hy]; simpl.
  - constructor; constructor.
  - destruct (Qle_bool x y) eqn:E.
    + apply Qle_bool_iff in E. constructor; [constructor; assumption|].
      constructor; [exact E|].
      eapply Forall_impl; [exact Hy|]. intros z Hz. simpl in Hz.
      eapply Qle_trans; eassumption.
    + assert (Hyx : y <= x).
      { apply Qlt_le_weak, Qnot_le_lt. intros Hle.
        apply Qle_bool_iff in Hle. congruence. }
      constructor; [exact IH|].
      rewrite insert_sorted_perm. constructor; assumption.
Qed.

Lemma Qsort_sorted (xs : list Q) : StronglySorted Qle (Qsort xs).
Proof.
  induction xs as [|x xs IH]; simpl; [constructor | apply insert_sorted_sorted, IH].
Qed.

Lemma nth_sorted (s : list Q) (i j : nat) :
  StronglySorted Qle s → (i ≤ j < length s)%nat → nth i s 0 <= nth j s 0.
Proof.
  intros Hs. revert i j. induction Hs as [|x s Hs IH Hx]; intros i j [Hij Hj].
  - simpl in Hj. lia.
  - destruct j as [|j]; [replace i with 0%nat by lia; apply Qle_refl|].
    destruct i as [|i]; simpl.
    + rewrite Forall_forall in Hx. apply Hx.
      apply list_elem_of_In, nth_In. simpl in Hj. lia.
    + apply IH. simpl in Hj. lia.
Qed.

(** The virtual index of a percentile and its integer part stay inside the
    sorted array. *)
Lemma virtual_index_bounds (n p : nat) :
  (0 < n)%nat → (p ≤ 100)%nat →
  let vi := inject_Z (Z.of_nat (n - 1)) * inject_Z (Z.of_nat p) / 100 in
  0 <= vi ∧ vi <= inject_Z (Z.of_nat (n - 1))
  ∧ (Z.to_nat (Qfloor vi) ≤ n - 1)%nat
  ∧ inject_Z (Z.of_nat (Z.to_nat (Qfloor vi))) = inject_Z (Qfloor vi)
  ∧ 0 <= vi - inject_Z (Qfloor vi) ∧ vi - inject_Z (Qfloor vi) <= 1.
Proof.
  intros Hn Hp vi.
  assert (Hm : 0 <= inject_Z (Z.of_nat (n - 1))).
  { change 0 with (inject_Z 0). rewrite <- Zle_Qle. lia. }
  assert (Hp0 : 0 <= inject_Z (Z.of_nat p)).
  { change 0 with (inject_Z 0). rewrite <- Zle_Qle. lia. }
  assert (Hp1 : inject_Z (Z.of_nat p) <= 100).
  { change 100 with (inject_Z 100). rewrite <- Zle_Qle. lia. }
  assert (H0 : 0 <= vi).
  { unfold vi. apply Qle_shift_div_l; [reflexivity|]. rewrite Qmult_0_l.
    apply Qmult_le_0_compat; assumption. }
  assert (H1 : vi <= inject_Z (Z.of_nat (n - 1))).
  { unfold vi. apply Qle_shift_div_r; [reflexivity|].
    apply Qmult_le_compat_nonneg; split; try assumption; apply Qle_refl. }
  assert (Hf0 : (0 ≤ Qfloor vi)%Z).
  { change 0%Z with (Qfloor 0). apply Qfloor_resp_le, H0. }
  assert (Hf1 : (Qfloor vi ≤ Z.of_nat (n - 1))%Z).
  { rewrite <- (Qfloor_Z (Z.of_nat (n - 1))). apply Qfloor_resp_le, H1. }
  split; [exact H0|]. split; [exact H1|]. split; [lia|].
  split; [rewrite Z2Nat.id by exact Hf0; reflexivity|].
  pose proof (Qfloor_le vi) as Hle. pose proof (Qlt_floor vi) as Hlt.
  rewrite inject_Z_plus in Hlt. change (inject_Z 1) with 1 in Hlt.
  split; lra.
Qed.

Lemma interpolation_bounds (lo hi g : Q) :
  lo <= hi → 0 <= g → g <= 1 →
  lo <= lo + (hi - lo) * g ∧ lo + (hi - lo) * g <= hi.
Proof.
  intros Hlh Hg0 Hg1.
  assert (H0 : 0 <= (hi - lo) * g) by (apply Qmult_le_0_compat; lra).
  assert (H1 : (hi - lo) * g <= (hi - lo) * 1).
  { apply Qmult_le_compat_nonneg; split; lra. }
  set (t := (hi - lo) * g) in *. split; lra.
Qed.



(** Percentiles of a non-empty array do not decrease with the percent. *)
Lemma Qpercentile_mono (xs : list Q) (p q : nat) :
  xs ≠ [] → (p ≤ q)%nat → (q ≤ 100)%nat → Qpercentile xs p <= Qpercentile xs q.
Proof.
  intros Hne Hpq Hq. unfold Qpercentile.
  pose proof (Permutation_length (Qsort_perm xs)) as Hlen.
  pose proof (Qsort_sorted xs) as Hs.
  set (s := Qsort xs) in *. set (n := length s) in *.
  assert (Hn : (0 < n)%nat).
  { rewrite Hlen. destruct xs; [congruence | simpl; lia]. }
  destruct (virtual_index_bounds n p Hn ltac:(lia)) as (_ & _ & Hk1 & Hz1 & Hg10 & Hg11).
  destruct (virtual_index_bounds n q Hn Hq) as (_ & _ & Hk2 & Hz2 & Hg20 & Hg21).
  set (v1 := inject_Z (Z.of_nat (n - 1)) * inject_Z (Z.of_nat p) / 100) in *.
  set (v2 := inject_Z (Z.of_nat (n - 1)) * inject_Z (Z.of_nat q) / 100) in *.
  assert (Hv : v1 <= v2).
  { unfold v1, v2. apply Qmult_le_compat_r; [|discriminate].
    apply Qmult_le_compat_nonneg; split.
    - change 0 with (inject_Z 0). rewrite <- Zle_Qle. lia.
    - apply Qle_refl.
    - change 0 with (inject_Z 0). rewrite <- Zle_Qle. lia.
    - rewrite <- Zle_Qle. lia. }
  pose proof (Qfloor_resp_le _ _ Hv) as Hfl.
  set (k1 := Z.to_nat (Qfloor v1)) in *. set (k2 := Z.to_nat (Qfloor v2)) in *.
  assert (Hk : (k1 ≤ k2)%nat) by (unfold k1, k2; lia).
  assert (Hlh1 : nth k1 s 0 <= nth (Nat.min (S k1) (n - 1)) s 0)
    by (apply nth_sorted; [exact Hs | unfold n in *; lia]).
  assert (Hlh2 : nth k2 s 0 <= nth (Nat.min (S k2) (n - 1)) s 0)
    by (apply nth_sorted; [exact Hs | unfold n in *; lia]).
  destruct (interpolation_bounds _ _ _ Hlh1 Hg10 Hg11) as [_ Hup].
  destruct (interpolation_bounds _ _ _ Hlh2 Hg20 Hg21) as [Hlow _].
  destruct (decide (k1 = k2)) as [Heq|Hne12].
  - assert (Hfeq : inject_Z (Qfloor v1) = inject_Z (Qfloor v2)).
    { rewrite <- Hz1, <- Hz2. fold k1 k2. rewrite Heq. reflexivity. }
    rewrite <- Heq, <- Hfeq.
    assert (Hm : (nth (Nat.min (S k1) (n - 1)) s 0 - nth k1 s 0) * (v1 - inject_Z (Qfloor v1))
                 <= (nth (Nat.min (S k1) (n - 1)) s 0 - nth k1 s 0)
                    * (v2 - inject_Z (Qfloor v1))).
    { apply Qmult_le_compat_nonneg; split; lra. }
    lra.
  - eapply Qle_trans; [exact Hup|]. eapply Qle_trans; [|exact Hlow].
    apply nth_sorted; [exact Hs | unfold n in *; lia].
Qed.

End Percentiles.

(** ** What the baseline and percentile thresholds flag *)

Section BaselineThreshold.
Import TrainModel OptimizeThreshold Baseline.













(** X13. On a non-empty array of training errors both percentiles return,
    and percentile thresholds are ordered like their percents, so a higher
    percentile never flags more windows: for p <= q <= 100 the threshold
    at q flags no more of any error vector than the threshold at p.  This
    orders the five percentile strategies and the fifty candidates of the
    fallback sweep. *)
Theorem higher_percentile_flags_fewer (train_errors errors : list npfloat)
    (p q : nat) :
  train_errors ≠ [] → (p ≤ q)%nat → (q ≤ 100)%nat →
  ∃ tp tq,
    np_percentile train_errors p = Ok tp
    ∧ np_percentile train_errors q = Ok tq
    ∧ (anomaly_count errors tq ≤ anomaly_count errors tp)%nat
    ∧ (∀ t, tp = fin t → ∃ t', tq = fin t' ∧ t <= t').
Proof.
  intros Hne Hpq Hq. destruct train_errors as [|e es]; [congruence|].
  do 2 eexists. split; [reflexivity|]. split; [reflexivity|].
  unfold reduce. destruct (all_finite (e :: es)) as [[|x xs]|].
  - split; [reflexivity | discriminate].
  - split.
    + apply anomaly_count_monotone. simpl. apply Qle_bool_iff.
      apply Qpercentile_mono; [discriminate | exact Hpq | exact Hq].
    + intros t [= <-]. eexists. split; [reflexivity|].
      apply Qpercentile_mono; [discriminate | exact Hpq | exact Hq].
  - split; [reflexivity | discriminate].
Qed.

Lemma higher_percentile_flags_fewer_witness :
  ∃ tp tq,
    np_percentile demo_train_errors 50 = Ok tp
    ∧ np_percentile demo_train_errors 95 = Ok tq
    ∧ (anomaly_count demo_test_errors tq ≤ anomaly_count demo_test_errors tp)%nat
    ∧ (∀ t, tp = fin t → ∃ t', tq = fin t' ∧ t <= t').
Proof.
  apply (higher_percentile_flags_fewer demo_train_errors demo_test_errors 50 95);
    [discriminate | lia | lia].
Defined.

End BaselineThreshold.

(** ** The response of the upload endpoint (app.upload_file) *)

Section UploadEndpoint.
Import App Upload.
Context `{Numeric} `{Runtime} `{Web}.

(** Every dictionary [detect_anomalies] returns has the two keys the
    handler reads. *)
Lemma detect_anomalies_keys (path : string) (g : Globals) :
  is_Some ((detect_anomalies path g).1 !! "anomalies_count")
  ∧ is_Some ((detect_anomalies path g).1 !! "details").
Proof.
  assert (Herr : ∀ msg, is_Some (error_result msg !! "anomalies_count")
                        ∧ is_Some (error_result msg !! "details")).
  { intros msg. destruct (error_result_lookup msg) as (_ & -> & -> & _). eauto. }
  unfold detect_anomalies, detect_try.
  destruct (load_ml_model g) as [[[[model|] thr]|e] g']; simpl; try apply Herr.
  unfold detect_with.
  destruct (preprocess_for_detection path) as [[[sequences df] features]|e]; simpl;
    try apply Herr.
  destruct (model_predict model sequences) as [reconstructed|e]; simpl;
    try apply Herr.
  split; simplify_map_eq; eauto.
Qed.

(** The requests the handler rejects before touching anything. *)
Definition rejected (file : option string) : Prop :=
  match file with
  | None => True
  | Some filename => filename = "" ∨ endswith filename ".csv" = false
  end.

(** X14. The response of [upload_file].  The status is 200, 400 or 500.
    It is 400 exactly for a request without a file part, with an empty
    file name or with a name that does not end in [.csv], and then the
    model cache is untouched.  Every response other than 200 carries an
    ['error'] message.  A 200 response is the detection report, without
    an ['error'] key, extended by the ['scan_id'] the database returned:
    it is sent only if the upload was saved, the detection completed, the
    scan was stored and the temporary file was removed without error. *)
Theorem upload_file_response (file : option string) (g g' : Globals)
    (body : gmap string pyval) (status : Z) :
  upload_file file g = ((body, status), g') →
  (status = 200 ∨ status = 400 ∨ status = 500)%Z
  ∧ (status = 400%Z ↔ rejected file)
  ∧ (status = 400%Z → g' = g)
  ∧ (status ≠ 200%Z → is_Some (body !! "error"))
  ∧ (status = 200%Z →
     ∃ filename temp_path count details scan_id,
       file = Some filename
       ∧ save_upload filename = Ok temp_path
       ∧ g' = (detect_anomalies temp_path g).2
       ∧ (detect_anomalies temp_path g).1 !! "error" = None
       ∧ (detect_anomalies temp_path g).1 !! "anomalies_count" = Some count
       ∧ (detect_anomalies temp_path g).1 !! "details" = Some details
       ∧ store_scan count details = Ok scan_id
       ∧ remove_temp temp_path = Ok ()
       ∧ body = <["scan_id" := VInt scan_id]> (detect_anomalies temp_path g).1
       ∧ body !! "error" = None).
Proof.
  assert (Herror : ∀ msg, is_Some (json_error msg !! "error")).
  { intros msg. unfold json_error. rewrite lookup_singleton_eq. eauto. }
  unfold upload_file. intros Hrun.
  destruct file as [filename|]; simpl.
  2:{ injection Hrun as <- <- <-.
      repeat split; try tauto; try lia; try discriminate. intros _. apply Herror. }
  destruct (String.eqb_spec filename "") as [->|Hname].
  { injection Hrun as <- <- <-.
    repeat split; try tauto; try lia; try discriminate. intros _. apply Herror. }
  destruct (endswith filename ".csv") eqn:Hcsv; simpl in Hrun.
  2:{ injection Hrun as <- <- <-.
      repeat split; try tauto; try lia; try discriminate. intros _. apply Herror. }
  assert (Hnot : ¬ (filename = "" ∨ true = false)) by (intros [?|?]; congruence).
  destruct (save_upload filename) as [temp_path|e] eqn:Hsave.
  2:{ injection Hrun as <- <- <-.
      repeat split; try tauto; try lia; try discriminate. intros _. apply Herror. }
  pose proof (detect_anomalies_keys temp_path g) as [[count Hcount] [details Hdetails]].
  destruct (detect_anomalies temp_path g) as [detection g1] eqn:Hdetect.
  simpl in Hcount, Hdetails.
  destruct (remove_temp temp_path) as [[]|e] eqn:Hremove.
  2:{ injection Hrun as <- <- <-.
      repeat split; try tauto; try lia; try discriminate. intros _. apply Herror. }
  unfold store_detection in Hrun.
  rewrite Hcount, Hdetails in Hrun.
  destruct (detection !! "error") as [err|] eqn:Herr.
  { injection Hrun as <- <- <-.
    repeat split; try tauto; try lia; try discriminate. intros _. eauto. }
  destruct (store_scan count details) as [scan_id|e] eqn:Hstore; simpl in Hrun.
  2:{ injection Hrun as <- <- <-.
      repeat split; try tauto; try lia; try discriminate. intros _. apply Herror. }
  injection Hrun as <- <- <-.
  split; [lia|]. split; [split; [discriminate | tauto]|].
  split; [discriminate|]. split; [intros Hne; contradiction|]. intros _.
  exists filename, temp_path, count, details, scan_id.
  rewrite Hdetect. simpl.
  repeat split; try assumption; try reflexivity.
  rewrite lookup_insert_ne by discriminate. exact Herr.
Qed.

End UploadEndpoint.

(** A web layer for closed examples: the upload is saved under its own
    name, the database returns id 1, and the temporary file is removed. *)
Definition demo_web : Web :=
  {| save_upload := fun filename => Ok filename;
     store_scan := fun _ _ => Ok 1%Z;
     remove_temp := fun _ => Ok () |}.

Definition demo_response : (gmap string App.pyval * Z) * @App.Globals demo_runtime :=
  @Upload.upload_file exact_sqrt demo_runtime demo_web (Some "upload.csv")
    (@App.Build_Globals demo_runtime None None).

Lemma demo_response_ok :
  @Upload.upload_file exact_sqrt demo_runtime demo_web (Some "upload.csv")
    (@App.Build_Globals demo_runtime None None)
  = ((demo_response.1.1, 200%Z), demo_response.2).
Proof. vm_compute. reflexivity. Qed.

Lemma upload_file_response_witness :
  ∃ scan_id,
    demo_response.1.1 !! "scan_id" = Some (App.VInt scan_id)
    ∧ demo_response.1.1 !! "error" = None.
Proof.
  destruct (@upload_file_response exact_sqrt demo_runtime demo_web
              (Some "upload.csv") (@App.Build_Globals demo_runtime None None)
              _ _ _ demo_response_ok) as (_ & _ & _ & _ & H200).
  destruct (H200 eq_refl)
    as (filename & temp_path & count & details & scan_id
        & _ & _ & _ & _ & _ & _ & _ & _ & Hbody & Herr).
  exists scan_id. split; [|exact Herr].
  rewrite Hbody. apply lookup_insert_eq.
Defined.
